(** * YesCaptcha SDK: error mapping, task models and the create-then-poll workflow

    A shallow embedding of [yescaptcha/exceptions.py], [yescaptcha/models.py]
    and [yescaptcha/client.py], followed by the properties proved about it.

    - Python [float] is IEEE-754 binary64: [SpecFloat.spec_float] with
      precision 53 and exponent bound 1024, round to nearest even.
    - Parsed JSON and the keyword arguments of a model are [value]s; a Python
      [dict] with string keys is an association list in insertion order.
    - The HTTP transport and [asyncio.sleep] are effects: [_request] asks an
      oracle for the reply and both are recorded in a trace of events. *)

From Stdlib Require Import ZArith Ascii String List Bool Lia.
From Stdlib Require Import Floats.SpecFloat.
From stdpp Require Import gmap strings.

#[local] Set Warnings "-register-all".

Local Open Scope Z_scope.
Local Open Scope string_scope.

(* ===================================================================== *)
(** ** Python floats *)
(* ===================================================================== *)

Module PyFloat.

Definition float := spec_float.

Definition prec : Z := 53.
Definition emax : Z := 1024.

(** [x + y] and [x < y], [x <= y] on floats. *)
Definition add (x y : float) : float := SFadd prec emax x y.
Definition ltb (x y : float) : bool := SFltb x y.
Definition leb (x y : float) : bool := SFleb x y.

(** [math.isfinite(x)]: neither an infinity nor NaN. *)
Definition is_finite (x : float) : bool :=
  match x with
  | S754_zero _ | S754_finite _ _ _ => true
  | S754_infinity _ | S754_nan => false
  end.

(** The literals that occur in the source and in its documented scenarios:
    [0.0], [0.1 = 0x1.999999999999ap-4], [0.3 = 0x1.3333333333333p-2],
    [3.0], [5.0] and [120.0]. *)
Definition zero : float := S754_zero false.
Definition f0_1 : float := S754_finite false 7205759403792794 (-56).
Definition f0_3 : float := S754_finite false 5404319552844595 (-54).
Definition f3_0 : float := S754_finite false 6755399441055744 (-51).
Definition f5_0 : float := S754_finite false 5629499534213120 (-50).
Definition f120_0 : float := S754_finite false 8444249301319680 (-46).

End PyFloat.

(* ===================================================================== *)
(** ** exceptions.py *)
(* ===================================================================== *)

Module Exceptions.

(** The class [YesCaptchaError] and its subclasses. *)
Inductive error_class : Type :=
| YesCaptchaError
| TaskTimeoutError
| InsufficientBalanceError
| InvalidKeyError
| TaskUnsolvableError
| IPBlockedError
| NoSlotAvailableError
| TaskNotSupportedError
| InvalidTaskIdError
| BadRequestError
| ServiceUnavailableError.

(** An exception object: its class and the three attributes set by
    [YesCaptchaError.__init__]. *)
Record exception : Type := mk_exception {
  cls : error_class;
  error_id : Z;
  error_code : option string;
  error_description : option string
}.

(** Truth value of an [Optional[str]]: [None] and [""] are false. *)
Definition truthy (s : option string) : bool :=
  match s with
  | Some (String _ _) => true
  | _ => false
  end.

(** [str(x)] of an [Optional[str]] inside an f-string. *)
Definition py_str (s : option string) : string :=
  match s with
  | Some x => x
  | None => "None"
  end.

(** The message handed to [Exception.__init__]:
    [f"[{error_code}] {error_description}" if error_code else error_description]. *)
Definition message (e : exception) : option string :=
  if truthy (error_code e)
  then Some ("[" +:+ py_str (error_code e) +:+ "] " +:+ py_str (error_description e))
  else error_description e.

Definition ERROR_CODE_MAP : gmap string error_class :=
  <["ERROR_TASK_TIMEOUT" := TaskTimeoutError]>
  (<["ERROR_ZERO_BALANCE" := InsufficientBalanceError]>
  (<["ERROR_KEY_DOES_NOT_EXIST" := InvalidKeyError]>
  (<["ERROR_CAPTCHA_UNSOLVABLE" := TaskUnsolvableError]>
  (<["ERROR_IP_BLOCKED_5MIN" := IPBlockedError]>
  (<["ERROR_IP_BANNED" := IPBlockedError]>
  (<["ERROR_NO_SLOT_AVAILABLE" := NoSlotAvailableError]>
  (<["ERROR_NO_SLOT_AVAILABLE_BLOCK" := NoSlotAvailableError]>
  (<["ERROR_TASK_NOT_SUPPORTED" := TaskNotSupportedError]>
  (<["ERROR_TASKID_INVALID" := InvalidTaskIdError]>
  (<["ERROR_NO_SUCH_CAPCHA_ID" := InvalidTaskIdError]>
  (<["ERROR_BAD_REQUEST" := BadRequestError]>
  (<["ERROR_SERVICE_UNAVALIABLE" := ServiceUnavailableError]> ∅)))))))))))).

(** [error_code or ""]. *)
Definition or_empty (error_code : option string) : string :=
  if truthy error_code then py_str error_code else "".

(** [raise_for_error]: [inl tt] when it returns, [inr e] when it raises [e]. *)
Definition raise_for_error
    (error_id : Z) (error_code error_description : option string)
    : unit + exception :=
  if (error_id =? 0)%Z then inl tt
  else
    let exception_class :=
      default YesCaptchaError (ERROR_CODE_MAP !! or_empty error_code) in
    inr (mk_exception exception_class error_id error_code error_description).

End Exceptions.

(* ===================================================================== *)
(** ** Values and pydantic field validation *)
(* ===================================================================== *)

Module Pydantic.

(** Python values built from JSON: [None], [bool], [int], [float], [str],
    [list] and [dict] with string keys (items in insertion order). *)
Inductive value : Type :=
| VNone
| VBool (b : bool)
| VInt (n : Z)
| VFloat (x : PyFloat.float)
| VStr (s : string)
| VList (l : list value)
| VDict (d : list (string * value)).

(** [d.get(k)]: the first item stored under [k]. *)
Fixpoint dict_get {A : Type} (d : list (string * A)) (k : string) : option A :=
  match d with
  | [] => None
  | (k', v) :: d' => if String.eqb k' k then Some v else dict_get d' k
  end.

Definition is_none (v : value) : bool :=
  match v with
  | VNone => true
  | _ => false
  end.

(** Validators of the annotations used in [models.py]. A validator yields
    [None] where pydantic reports a validation error. Only values that
    already have the annotated type are accepted: the conversions of
    pydantic's lax mode between scalar types are not part of the model. *)
Definition as_str (v : value) : option string :=
  match v with VStr s => Some s | _ => None end.

Definition as_bool (v : value) : option bool :=
  match v with VBool b => Some b | _ => None end.

Definition as_int (v : value) : option Z :=
  match v with VInt n => Some n | _ => None end.

(** [Literal[c1, c2, ...]] *)
Definition as_literal (choices : list string) (v : value) : option string :=
  match v with
  | VStr s => if existsb (String.eqb s) choices then Some s else None
  | _ => None
  end.

(** [list[T]] *)
Definition as_list {A : Type} (elem : value -> option A) (v : value)
    : option (list A) :=
  match v with VList l => mapM elem l | _ => None end.

(** [dict[str, T]] *)
Definition as_dict {A : Type} (elem : value -> option A) (v : value)
    : option (list (string * A)) :=
  match v with
  | VDict d => mapM (fun kv => x ← elem kv.2; Some (kv.1, x)) d
  | _ => None
  end.

(** [Any] *)
Definition as_any (v : value) : option value := Some v.

(** [float]: a float, or an int converted as Python's [float(n)] does;
    the conversion is handed in as [float_of_int]. *)
Definition as_float (float_of_int : Z -> option PyFloat.float) (v : value)
    : option PyFloat.float :=
  match v with
  | VFloat x => Some x
  | VInt n => float_of_int n
  | _ => None
  end.

(** The input of [model_validate] must be a mapping. *)
Definition as_object (v : value) : option (list (string * value)) :=
  match v with VDict d => Some d | _ => None end.

(** A field without default ([name: T] or [Field(...)]). *)
Definition required {A : Type} (d : list (string * value)) (name : string)
    (conv : value -> option A) : option A :=
  match dict_get d name with
  | Some v => conv v
  | None => None
  end.

(** A field [name: T = dflt]. *)
Definition with_default {A : Type} (d : list (string * value)) (name : string)
    (conv : value -> option A) (dflt : A) : option A :=
  match dict_get d name with
  | Some v => conv v
  | None => Some dflt
  end.

(** A field [name: Optional[T] = None]. *)
Definition optional {A : Type} (d : list (string * value)) (name : string)
    (conv : value -> option A) : option (option A) :=
  match dict_get d name with
  | None | Some VNone => Some None
  | Some v => Some <$> conv v
  end.

(** The value of an [Optional] attribute. *)
Definition opt {A : Type} (inj : A -> value) (o : option A) : value :=
  match o with
  | Some a => inj a
  | None => VNone
  end.

Definition VStrs (l : list string) : value := VList (VStr <$> l).

(** [exclude_none=True]: the fields whose value is [None] are left out. *)
Definition exclude_none (fields : list (string * value)) : list (string * value) :=
  List.filter (fun kv => negb (is_none kv.2)) fields.

End Pydantic.

(* ===================================================================== *)
(** ** models.py: task types *)
(* ===================================================================== *)

Module Models.
Import Pydantic.

Module ImageToTextTask.
Record t : Type := mk {
  type : string;
  body : string;
  project_name : option string
}.
Definition type_literals : list string :=
  ["ImageToTextTask"; "ImageToTextTaskMuggle"; "ImageToTextTaskM1"].
Definition model_validate (data : value) : option t :=
  d ← as_object data;
  type ← with_default d "type" (as_literal type_literals) "ImageToTextTaskMuggle";
  body ← required d "body" as_str;
  project_name ← optional d "project_name" as_str;
  Some (mk type body project_name).
Definition fields (x : t) : list (string * value) :=
  [ ("type", VStr (type x));
    ("body", VStr (body x));
    ("project_name", opt VStr (project_name x)) ].
End ImageToTextTask.

Module NoCaptchaTaskProxyless.
Record t : Type := mk {
  type : string;
  websiteURL : string;
  websiteKey : string;
  isInvisible : bool
}.
Definition type_literals : list string :=
  ["NoCaptchaTaskProxyless"; "RecaptchaV2TaskProxyless"].
Definition model_validate (data : value) : option t :=
  d ← as_object data;
  type ← with_default d "type" (as_literal type_literals) "NoCaptchaTaskProxyless";
  websiteURL ← required d "websiteURL" as_str;
  websiteKey ← required d "websiteKey" as_str;
  isInvisible ← with_default d "isInvisible" as_bool false;
  Some (mk type websiteURL websiteKey isInvisible).
Definition fields (x : t) : list (string * value) :=
  [ ("type", VStr (type x));
    ("websiteURL", VStr (websiteURL x));
    ("websiteKey", VStr (websiteKey x));
    ("isInvisible", VBool (isInvisible x)) ].
End NoCaptchaTaskProxyless.

Module RecaptchaV2EnterpriseTaskProxyless.
Record t : Type := mk {
  type : string;
  websiteURL : string;
  websiteKey : string;
  enterprisePayload : option (list (string * value))
}.
Definition type_literals : list string :=
  ["RecaptchaV2EnterpriseTaskProxyless"].
Definition model_validate (data : value) : option t :=
  d ← as_object data;
  type ← with_default d "type" (as_literal type_literals)
           "RecaptchaV2EnterpriseTaskProxyless";
  websiteURL ← required d "websiteURL" as_str;
  websiteKey ← required d "websiteKey" as_str;
  enterprisePayload ← optional d "enterprisePayload" (as_dict as_any);
  Some (mk type websiteURL websiteKey enterprisePayload).
Definition fields (x : t) : list (string * value) :=
  [ ("type", VStr (type x));
    ("websiteURL", VStr (websiteURL x));
    ("websiteKey", VStr (websiteKey x));
    ("enterprisePayload", opt VDict (enterprisePayload x)) ].
End RecaptchaV2EnterpriseTaskProxyless.

Module RecaptchaV3TaskProxyless.
Record t : Type := mk {
  type : string;
  websiteURL : string;
  websiteKey : string;
  pageAction : string
}.
Definition type_literals : list string :=
  ["RecaptchaV3TaskProxyless"; "RecaptchaV3TaskProxylessM1"].
Definition model_validate (data : value) : option t :=
  d ← as_object data;
  type ← with_default d "type" (as_literal type_literals) "RecaptchaV3TaskProxyless";
  websiteURL ← required d "websiteURL" as_str;
  websiteKey ← required d "websiteKey" as_str;
  pageAction ← required d "pageAction" as_str;
  Some (mk type websiteURL websiteKey pageAction).
Definition fields (x : t) : list (string * value) :=
  [ ("type", VStr (type x));
    ("websiteURL", VStr (websiteURL x));
    ("websiteKey", VStr (websiteKey x));
    ("pageAction", VStr (pageAction x)) ].
End RecaptchaV3TaskProxyless.

Module RecaptchaV3EnterpriseTask.
Record t : Type := mk {
  type : string;
  websiteURL : string;
  websiteKey : string;
  pageAction : string;
  enterprisePayload : option (list (string * value))
}.
Definition type_literals : list string :=
  ["RecaptchaV3EnterpriseTask"; "RecaptchaV3EnterpriseTaskProxyless"].
Definition model_validate (data : value) : option t :=
  d ← as_object data;
  type ← with_default d "type" (as_literal type_literals) "RecaptchaV3EnterpriseTask";
  websiteURL ← required d "websiteURL" as_str;
  websiteKey ← required d "websiteKey" as_str;
  pageAction ← required d "pageAction" as_str;
  enterprisePayload ← optional d "enterprisePayload" (as_dict as_any);
  Some (mk type websiteURL websiteKey pageAction enterprisePayload).
Definition fields (x : t) : list (string * value) :=
  [ ("type", VStr (type x));
    ("websiteURL", VStr (websiteURL x));
    ("websiteKey", VStr (websiteKey x));
    ("pageAction", VStr (pageAction x));
    ("enterprisePayload", opt VDict (enterprisePayload x)) ].
End RecaptchaV3EnterpriseTask.

Module HCaptchaTaskProxyless.
Record t : Type := mk {
  type : string;
  websiteURL : string;
  websiteKey : string
}.
Definition type_literals : list string := ["HCaptchaTaskProxyless"].
Definition model_validate (data : value) : option t :=
  d ← as_object data;
  type ← with_default d "type" (as_literal type_literals) "HCaptchaTaskProxyless";
  websiteURL ← required d "websiteURL" as_str;
  websiteKey ← required d "websiteKey" as_str;
  Some (mk type websiteURL websiteKey).
Definition fields (x : t) : list (string * value) :=
  [ ("type", VStr (type x));
    ("websiteURL", VStr (websiteURL x));
    ("websiteKey", VStr (websiteKey x)) ].
End HCaptchaTaskProxyless.

Module HCaptchaClassification.
Record t : Type := mk {
  type : string;
  queries : list string;
  question : option string;
  anchors : option (list string)
}.
Definition type_literals : list string := ["HCaptchaClassification"].
Definition model_validate (data : value) : option t :=
  d ← as_object data;
  type ← with_default d "type" (as_literal type_literals) "HCaptchaClassification";
  queries ← required d "queries" (as_list as_str);
  question ← optional d "question" as_str;
  anchors ← optional d "anchors" (as_list as_str);
  Some (mk type queries question anchors).
Definition fields (x : t) : list (string * value) :=
  [ ("type", VStr (type x));
    ("queries", VStrs (queries x));
    ("question", opt VStr (question x));
    ("anchors", opt VStrs (anchors x)) ].
End HCaptchaClassification.

Module ReCaptchaV2Classification.
Record t : Type := mk {
  type : string;
  image : string;
  question : string
}.
Definition type_literals : list string := ["ReCaptchaV2Classification"].
Definition model_validate (data : value) : option t :=
  d ← as_object data;
  type ← with_default d "type" (as_literal type_literals) "ReCaptchaV2Classification";
  image ← required d "image" as_str;
  question ← required d "question" as_str;
  Some (mk type image question).
Definition fields (x : t) : list (string * value) :=
  [ ("type", VStr (type x));
    ("image", VStr (image x));
    ("question", VStr (question x)) ].
End ReCaptchaV2Classification.

Module FunCaptchaClassification.
Record t : Type := mk {
  type : string;
  images : list string;
  question : string
}.
Definition type_literals : list string := ["FunCaptchaClassification"].
Definition model_validate (data : value) : option t :=
  d ← as_object data;
  type ← with_default d "type" (as_literal type_literals) "FunCaptchaClassification";
  images ← required d "images" (as_list as_str);
  question ← required d "question" as_str;
  Some (mk type images question).
Definition fields (x : t) : list (string * value) :=
  [ ("type", VStr (type x));
    ("images", VStrs (images x));
    ("question", VStr (question x)) ].
End FunCaptchaClassification.

Module TurnstileTaskProxyless.
Record t : Type := mk {
  type : string;
  websiteURL : string;
  websiteKey : string
}.
Definition type_literals : list string :=
  ["TurnstileTaskProxyless"; "TurnstileTaskProxylessM1"].
Definition model_validate (data : value) : option t :=
  d ← as_object data;
  type ← with_default d "type" (as_literal type_literals) "TurnstileTaskProxyless";
  websiteURL ← required d "websiteURL" as_str;
  websiteKey ← required d "websiteKey" as_str;
  Some (mk type websiteURL websiteKey).
Definition fields (x : t) : list (string * value) :=
  [ ("type", VStr (type x));
    ("websiteURL", VStr (websiteURL x));
    ("websiteKey", VStr (websiteKey x)) ].
End TurnstileTaskProxyless.

Module CloudFlareTask.
Record t : Type := mk {
  type : string;
  websiteURL : string;
  proxy : string;
  userAgent : option string;
  waitLoad : bool;
  requiredCookies : option (list string);
  blockImage : bool;
  postData : option (list (string * value))
}.
Definition type_literals : list string := ["CloudFlareTaskS2"; "CloudFlareTaskS3"].
Definition model_validate (data : value) : option t :=
  d ← as_object data;
  type ← with_default d "type" (as_literal type_literals) "CloudFlareTaskS3";
  websiteURL ← required d "websiteURL" as_str;
  proxy ← required d "proxy" as_str;
  userAgent ← optional d "userAgent" as_str;
  waitLoad ← with_default d "waitLoad" as_bool false;
  requiredCookies ← optional d "requiredCookies" (as_list as_str);
  blockImage ← with_default d "blockImage" as_bool false;
  postData ← optional d "postData" (as_dict as_any);
  Some (mk type websiteURL proxy userAgent waitLoad requiredCookies blockImage postData).
Definition fields (x : t) : list (string * value) :=
  [ ("type", VStr (type x));
    ("websiteURL", VStr (websiteURL x));
    ("proxy", VStr (proxy x));
    ("userAgent", opt VStr (userAgent x));
    ("waitLoad", VBool (waitLoad x));
    ("requiredCookies", opt VStrs (requiredCookies x));
    ("blockImage", VBool (blockImage x));
    ("postData", opt VDict (postData x)) ].
End CloudFlareTask.

(** The union [Task] and the classes it ranges over. *)
Inductive Task : Type :=
| Task_ImageToTextTask (x : ImageToTextTask.t)
| Task_NoCaptchaTaskProxyless (x : NoCaptchaTaskProxyless.t)
| Task_RecaptchaV2EnterpriseTaskProxyless (x : RecaptchaV2EnterpriseTaskProxyless.t)
| Task_RecaptchaV3TaskProxyless (x : RecaptchaV3TaskProxyless.t)
| Task_RecaptchaV3EnterpriseTask (x : RecaptchaV3EnterpriseTask.t)
| Task_HCaptchaTaskProxyless (x : HCaptchaTaskProxyless.t)
| Task_HCaptchaClassification (x : HCaptchaClassification.t)
| Task_ReCaptchaV2Classification (x : ReCaptchaV2Classification.t)
| Task_FunCaptchaClassification (x : FunCaptchaClassification.t)
| Task_TurnstileTaskProxyless (x : TurnstileTaskProxyless.t)
| Task_CloudFlareTask (x : CloudFlareTask.t).

Inductive task_class : Type :=
| C_ImageToTextTask
| C_NoCaptchaTaskProxyless
| C_RecaptchaV2EnterpriseTaskProxyless
| C_RecaptchaV3TaskProxyless
| C_RecaptchaV3EnterpriseTask
| C_HCaptchaTaskProxyless
| C_HCaptchaClassification
| C_ReCaptchaV2Classification
| C_FunCaptchaClassification
| C_TurnstileTaskProxyless
| C_CloudFlareTask.

Definition class_of (task : Task) : task_class :=
  match task with
  | Task_ImageToTextTask _ => C_ImageToTextTask
  | Task_NoCaptchaTaskProxyless _ => C_NoCaptchaTaskProxyless
  | Task_RecaptchaV2EnterpriseTaskProxyless _ => C_RecaptchaV2EnterpriseTaskProxyless
  | Task_RecaptchaV3TaskProxyless _ => C_RecaptchaV3TaskProxyless
  | Task_RecaptchaV3EnterpriseTask _ => C_RecaptchaV3EnterpriseTask
  | Task_HCaptchaTaskProxyless _ => C_HCaptchaTaskProxyless
  | Task_HCaptchaClassification _ => C_HCaptchaClassification
  | Task_ReCaptchaV2Classification _ => C_ReCaptchaV2Classification
  | Task_FunCaptchaClassification _ => C_FunCaptchaClassification
  | Task_TurnstileTaskProxyless _ => C_TurnstileTaskProxyless
  | Task_CloudFlareTask _ => C_CloudFlareTask
  end.

(** [task.type] *)
Definition task_type (task : Task) : string :=
  match task with
  | Task_ImageToTextTask x => ImageToTextTask.type x
  | Task_NoCaptchaTaskProxyless x => NoCaptchaTaskProxyless.type x
  | Task_RecaptchaV2EnterpriseTaskProxyless x => RecaptchaV2EnterpriseTaskProxyless.type x
  | Task_RecaptchaV3TaskProxyless x => RecaptchaV3TaskProxyless.type x
  | Task_RecaptchaV3EnterpriseTask x => RecaptchaV3EnterpriseTask.type x
  | Task_HCaptchaTaskProxyless x => HCaptchaTaskProxyless.type x
  | Task_HCaptchaClassification x => HCaptchaClassification.type x
  | Task_ReCaptchaV2Classification x => ReCaptchaV2Classification.type x
  | Task_FunCaptchaClassification x => FunCaptchaClassification.type x
  | Task_TurnstileTaskProxyless x => TurnstileTaskProxyless.type x
  | Task_CloudFlareTask x => CloudFlareTask.type x
  end.

(** The [Literal[...]] annotation of the field [type] of each class. *)
Definition type_literals (c : task_class) : list string :=
  match c with
  | C_ImageToTextTask => ImageToTextTask.type_literals
  | C_NoCaptchaTaskProxyless => NoCaptchaTaskProxyless.type_literals
  | C_RecaptchaV2EnterpriseTaskProxyless => RecaptchaV2EnterpriseTaskProxyless.type_literals
  | C_RecaptchaV3TaskProxyless => RecaptchaV3TaskProxyless.type_literals
  | C_RecaptchaV3EnterpriseTask => RecaptchaV3EnterpriseTask.type_literals
  | C_HCaptchaTaskProxyless => HCaptchaTaskProxyless.type_literals
  | C_HCaptchaClassification => HCaptchaClassification.type_literals
  | C_ReCaptchaV2Classification => ReCaptchaV2Classification.type_literals
  | C_FunCaptchaClassification => FunCaptchaClassification.type_literals
  | C_TurnstileTaskProxyless => TurnstileTaskProxyless.type_literals
  | C_CloudFlareTask => CloudFlareTask.type_literals
  end.

(** The fields each class declares without a default value. *)
Definition required_fields (c : task_class) : list string :=
  match c with
  | C_ImageToTextTask => ["body"]
  | C_NoCaptchaTaskProxyless => ["websiteURL"; "websiteKey"]
  | C_RecaptchaV2EnterpriseTaskProxyless => ["websiteURL"; "websiteKey"]
  | C_RecaptchaV3TaskProxyless => ["websiteURL"; "websiteKey"; "pageAction"]
  | C_RecaptchaV3EnterpriseTask => ["websiteURL"; "websiteKey"; "pageAction"]
  | C_HCaptchaTaskProxyless => ["websiteURL"; "websiteKey"]
  | C_HCaptchaClassification => ["queries"]
  | C_ReCaptchaV2Classification => ["image"; "question"]
  | C_FunCaptchaClassification => ["images"; "question"]
  | C_TurnstileTaskProxyless => ["websiteURL"; "websiteKey"]
  | C_CloudFlareTask => ["websiteURL"; "proxy"]
  end.

(** The fields each class declares as [Optional[...] = None]. *)
Definition optional_fields (c : task_class) : list string :=
  match c with
  | C_ImageToTextTask => ["project_name"]
  | C_RecaptchaV2EnterpriseTaskProxyless => ["enterprisePayload"]
  | C_RecaptchaV3EnterpriseTask => ["enterprisePayload"]
  | C_HCaptchaClassification => ["question"; "anchors"]
  | C_CloudFlareTask => ["userAgent"; "requiredCookies"; "postData"]
  | _ => []
  end.

(** The fields each class declares with a default other than [None], with
    that default. *)
Definition defaults (c : task_class) : list (string * value) :=
  match c with
  | C_ImageToTextTask => [ ("type", VStr "ImageToTextTaskMuggle") ]
  | C_NoCaptchaTaskProxyless =>
      [ ("type", VStr "NoCaptchaTaskProxyless"); ("isInvisible", VBool false) ]
  | C_RecaptchaV2EnterpriseTaskProxyless =>
      [ ("type", VStr "RecaptchaV2EnterpriseTaskProxyless") ]
  | C_RecaptchaV3TaskProxyless => [ ("type", VStr "RecaptchaV3TaskProxyless") ]
  | C_RecaptchaV3EnterpriseTask => [ ("type", VStr "RecaptchaV3EnterpriseTask") ]
  | C_HCaptchaTaskProxyless => [ ("type", VStr "HCaptchaTaskProxyless") ]
  | C_HCaptchaClassification => [ ("type", VStr "HCaptchaClassification") ]
  | C_ReCaptchaV2Classification => [ ("type", VStr "ReCaptchaV2Classification") ]
  | C_FunCaptchaClassification => [ ("type", VStr "FunCaptchaClassification") ]
  | C_TurnstileTaskProxyless => [ ("type", VStr "TurnstileTaskProxyless") ]
  | C_CloudFlareTask =>
      [ ("type", VStr "CloudFlareTaskS3"); ("waitLoad", VBool false);
        ("blockImage", VBool false) ]
  end.

(** All the fields of a class, in declaration order. *)
Definition field_names (c : task_class) : list string :=
  match c with
  | C_ImageToTextTask => ["type"; "body"; "project_name"]
  | C_NoCaptchaTaskProxyless => ["type"; "websiteURL"; "websiteKey"; "isInvisible"]
  | C_RecaptchaV2EnterpriseTaskProxyless =>
      ["type"; "websiteURL"; "websiteKey"; "enterprisePayload"]
  | C_RecaptchaV3TaskProxyless => ["type"; "websiteURL"; "websiteKey"; "pageAction"]
  | C_RecaptchaV3EnterpriseTask =>
      ["type"; "websiteURL"; "websiteKey"; "pageAction"; "enterprisePayload"]
  | C_HCaptchaTaskProxyless => ["type"; "websiteURL"; "websiteKey"]
  | C_HCaptchaClassification => ["type"; "queries"; "question"; "anchors"]
  | C_ReCaptchaV2Classification => ["type"; "image"; "question"]
  | C_FunCaptchaClassification => ["type"; "images"; "question"]
  | C_TurnstileTaskProxyless => ["type"; "websiteURL"; "websiteKey"]
  | C_CloudFlareTask =>
      ["type"; "websiteURL"; "proxy"; "userAgent"; "waitLoad"; "requiredCookies";
       "blockImage"; "postData"]
  end.

(** [cls.model_validate(data)]; constructing an instance from keyword
    arguments runs the same validation. *)
Definition model_validate (c : task_class) (data : value) : option Task :=
  match c with
  | C_ImageToTextTask =>
      Task_ImageToTextTask <$> ImageToTextTask.model_validate data
  | C_NoCaptchaTaskProxyless =>
      Task_NoCaptchaTaskProxyless <$> NoCaptchaTaskProxyless.model_validate data
  | C_RecaptchaV2EnterpriseTaskProxyless =>
      Task_RecaptchaV2EnterpriseTaskProxyless
        <$> RecaptchaV2EnterpriseTaskProxyless.model_validate data
  | C_RecaptchaV3TaskProxyless =>
      Task_RecaptchaV3TaskProxyless <$> RecaptchaV3TaskProxyless.model_validate data
  | C_RecaptchaV3EnterpriseTask =>
      Task_RecaptchaV3EnterpriseTask <$> RecaptchaV3EnterpriseTask.model_validate data
  | C_HCaptchaTaskProxyless =>
      Task_HCaptchaTaskProxyless <$> HCaptchaTaskProxyless.model_validate data
  | C_HCaptchaClassification =>
      Task_HCaptchaClassification <$> HCaptchaClassification.model_validate data
  | C_ReCaptchaV2Classification =>
      Task_ReCaptchaV2Classification <$> ReCaptchaV2Classification.model_validate data
  | C_FunCaptchaClassification =>
      Task_FunCaptchaClassification <$> FunCaptchaClassification.model_validate data
  | C_TurnstileTaskProxyless =>
      Task_TurnstileTaskProxyless <$> TurnstileTaskProxyless.model_validate data
  | C_CloudFlareTask =>
      Task_CloudFlareTask <$> CloudFlareTask.model_validate data
  end.

(** The declared fields of a task with their values, in declaration order:
    what [task.model_dump()] returns. *)
Definition fields (task : Task) : list (string * value) :=
  match task with
  | Task_ImageToTextTask x => ImageToTextTask.fields x
  | Task_NoCaptchaTaskProxyless x => NoCaptchaTaskProxyless.fields x
  | Task_RecaptchaV2EnterpriseTaskProxyless x => RecaptchaV2EnterpriseTaskProxyless.fields x
  | Task_RecaptchaV3TaskProxyless x => RecaptchaV3TaskProxyless.fields x
  | Task_RecaptchaV3EnterpriseTask x => RecaptchaV3EnterpriseTask.fields x
  | Task_HCaptchaTaskProxyless x => HCaptchaTaskProxyless.fields x
  | Task_HCaptchaClassification x => HCaptchaClassification.fields x
  | Task_ReCaptchaV2Classification x => ReCaptchaV2Classification.fields x
  | Task_FunCaptchaClassification x => FunCaptchaClassification.fields x
  | Task_TurnstileTaskProxyless x => TurnstileTaskProxyless.fields x
  | Task_CloudFlareTask x => CloudFlareTask.fields x
  end.

(** [task.model_dump(exclude_none=True)] *)
Definition model_dump_exclude_none (task : Task) : list (string * value) :=
  exclude_none (fields task).

(* ------------------------------------------------------------------- *)
(** *** Response models *)

Module Solution.
Record t : Type := mk {
  gRecaptchaResponse : option string;
  token : option string;
  text : option string;
  objects : option (list Z);
  cookies : option (list (string * string));
  userAgent : option string;
  content : option string;
  (** [model_config = {"extra": "allow"}]: the undeclared items. *)
  model_extra : list (string * value)
}.
Definition declared : list string :=
  ["gRecaptchaResponse"; "token"; "text"; "objects"; "cookies"; "userAgent"; "content"].
Definition is_extra (kv : string * value) : bool :=
  negb (existsb (String.eqb kv.1) declared).
Definition model_validate (data : value) : option t :=
  d ← as_object data;
  gRecaptchaResponse ← optional d "gRecaptchaResponse" as_str;
  token ← optional d "token" as_str;
  text ← optional d "text" as_str;
  objects ← optional d "objects" (as_list as_int);
  cookies ← optional d "cookies" (as_dict as_str);
  userAgent ← optional d "userAgent" as_str;
  content ← optional d "content" as_str;
  Some (mk gRecaptchaResponse token text objects cookies userAgent content
           (List.filter is_extra d)).
End Solution.

Module CreateTaskResponse.
Record t : Type := mk {
  errorId : Z;
  errorCode : option string;
  errorDescription : option string;
  taskId : option string
}.
Definition model_validate (data : value) : option t :=
  d ← as_object data;
  errorId ← required d "errorId" as_int;
  errorCode ← optional d "errorCode" as_str;
  errorDescription ← optional d "errorDescription" as_str;
  taskId ← optional d "taskId" as_str;
  Some (mk errorId errorCode errorDescription taskId).
End CreateTaskResponse.

Module TaskResultResponse.
Record t : Type := mk {
  errorId : Z;
  errorCode : option string;
  errorDescription : option string;
  status : option string;
  solution : option Solution.t
}.
Definition status_literals : list string := ["processing"; "ready"].
Definition model_validate (data : value) : option t :=
  d ← as_object data;
  errorId ← required d "errorId" as_int;
  errorCode ← optional d "errorCode" as_str;
  errorDescription ← optional d "errorDescription" as_str;
  status ← optional d "status" (as_literal status_literals);
  solution ← optional d "solution" Solution.model_validate;
  Some (mk errorId errorCode errorDescription status solution).
End TaskResultResponse.

Module BalanceResponse.
Record t : Type := mk {
  errorId : Z;
  errorCode : option string;
  errorDescription : option string;
  balance : option PyFloat.float;
  softBalance : option PyFloat.float;
  inviteBalance : option PyFloat.float;
  inviteBy : option string
}.
Definition model_validate (float_of_int : Z -> option PyFloat.float) (data : value)
    : option t :=
  d ← as_object data;
  errorId ← required d "errorId" as_int;
  errorCode ← optional d "errorCode" as_str;
  errorDescription ← optional d "errorDescription" as_str;
  balance ← optional d "balance" (as_float float_of_int);
  softBalance ← optional d "softBalance" (as_float float_of_int);
  inviteBalance ← optional d "inviteBalance" (as_float float_of_int);
  inviteBy ← optional d "inviteBy" as_str;
  Some (mk errorId errorCode errorDescription balance softBalance inviteBalance inviteBy).
End BalanceResponse.

End Models.

(* ===================================================================== *)
(** ** client.py *)
(* ===================================================================== *)

Module Client.
Import PyFloat Pydantic Models.

Definition SOFT_ID : string := "21471".
Definition INTERNATIONAL_API : string := "https://api.yescaptcha.com".
Definition CHINA_API : string := "https://cn.yescaptcha.com".

(** The attributes of a [YesCaptchaClient] that the requests depend on. *)
Record YesCaptchaClient : Type := mk_client {
  client_key : string;
  base_url : string;
  timeout : float
}.

(** [s.rstrip("/")] *)
Fixpoint rstrip_slash (s : string) : string :=
  match s with
  | EmptyString => EmptyString
  | String c s' =>
      match rstrip_slash s' with
      | EmptyString => if Ascii.eqb c "/"%char then EmptyString else String c EmptyString
      | r => String c r
      end
  end.

(** ["/" * n] *)
Fixpoint slashes (n : nat) : string :=
  match n with
  | O => ""
  | S n' => String "/" (slashes n')
  end.

Definition __init__ (client_key base_url : string) (timeout : float)
    : YesCaptchaClient :=
  mk_client client_key (rstrip_slash base_url) timeout.

(** What a call can raise: a [YesCaptchaError] (or subclass), pydantic's
    [ValidationError], or a failure of the HTTP transport. *)
Inductive exn : Type :=
| Api (e : Exceptions.exception)
| ValidationError
| TransportError (reason : string).

(** The observable effects: a POST request and a suspension. *)
Inductive event : Type :=
| Post (url : string) (payload : value)
| Sleep (delay : float).

(** What the transport hands back: the parsed JSON body, or a failure
    (network error, non-2xx status). *)
Inductive reply : Type :=
| Json (data : value)
| Failure (reason : string).

(** A call returns, raises, or is still running when the fuel is spent. *)
Inductive outcome (A : Type) : Type :=
| Return (a : A)
| Raise (e : exn)
| OutOfFuel.
Arguments Return {A} a.
Arguments Raise {A} e.
Arguments OutOfFuel {A}.

Section Workflow.

(** The remote service, as the transport sees it, and Python's
    formatting of a float inside an f-string. *)
Variable server : Type.
Variable http_post : string -> value -> server -> reply * server.
Variable format_float : float -> string.

Record world : Type := mk_world {
  srv : server;
  trace : list event
}.

Definition M (A : Type) : Type := world -> outcome A * world.

Definition ret {A : Type} (a : A) : M A := fun w => (Return a, w).

Definition raise {A : Type} (e : exn) : M A := fun w => (Raise e, w).

Definition out_of_fuel {A : Type} : M A := fun w => (OutOfFuel, w).

Definition bind {A B : Type} (c : M A) (k : A -> M B) : M B :=
  fun w =>
    match c w with
    | (Return a, w') => k a w'
    | (Raise e, w') => (Raise e, w')
    | (OutOfFuel, w') => (OutOfFuel, w')
    end.

Notation "x <- c ;; k" := (bind c (fun x => k))
  (at level 100, c at next level, k at level 200, right associativity).

(** [Model.model_validate(data)] *)
Definition validated {A : Type} (r : option A) : M A :=
  match r with
  | Some a => ret a
  | None => raise ValidationError
  end.

(** [raise_for_error(...)] inside a coroutine. *)
Definition check_error (error_id : Z) (error_code error_description : option string)
    : M unit :=
  match Exceptions.raise_for_error error_id error_code error_description with
  | inl _ => ret tt
  | inr e => raise (Api e)
  end.

(** [await asyncio.sleep(delay)], for a delay on which the call completes:
    a finite one. With an infinite delay the call never completes, and a
    NaN delay hangs or is refused depending on the Python version; [sleep]
    is not a model of these, and what is proved from a suspension that has
    returned assumes [is_finite poll_interval]. *)
Definition sleep (delay : float) : M unit :=
  fun w => (Return tt, mk_world (srv w) (trace w ++ [Sleep delay])).

Definition _request (self : YesCaptchaClient) (endpoint : string) (payload : value)
    : M value :=
  fun w =>
    let url := base_url self +:+ endpoint in
    let (r, s) := http_post url payload (srv w) in
    let w' := mk_world s (trace w ++ [Post url payload]) in
    match r with
    | Json data => (Return data, w')
    | Failure reason => (Raise (TransportError reason), w')
    end.

(** Python's conversion of an int to a float, used by pydantic for the
    balance fields. *)
Variable float_of_int : Z -> option float.

Definition get_balance (self : YesCaptchaClient) : M BalanceResponse.t :=
  let payload := VDict [ ("clientKey", VStr (client_key self)) ] in
  data <- _request self "/getBalance" payload ;;
  response <- validated (BalanceResponse.model_validate float_of_int data) ;;
  _ <- check_error (BalanceResponse.errorId response)
                   (BalanceResponse.errorCode response)
                   (BalanceResponse.errorDescription response) ;;
  ret response.

Definition create_task (self : YesCaptchaClient) (task : Task)
    : M CreateTaskResponse.t :=
  let payload :=
    VDict [ ("clientKey", VStr (client_key self));
            ("task", VDict (model_dump_exclude_none task));
            ("softId", VStr SOFT_ID) ] in
  data <- _request self "/createTask" payload ;;
  response <- validated (CreateTaskResponse.model_validate data) ;;
  _ <- check_error (CreateTaskResponse.errorId response)
                   (CreateTaskResponse.errorCode response)
                   (CreateTaskResponse.errorDescription response) ;;
  ret response.

Definition get_task_result (self : YesCaptchaClient) (task_id : string)
    : M TaskResultResponse.t :=
  let payload :=
    VDict [ ("clientKey", VStr (client_key self));
            ("taskId", VStr task_id) ] in
  data <- _request self "/getTaskResult" payload ;;
  response <- validated (TaskResultResponse.model_validate data) ;;
  _ <- check_error (TaskResultResponse.errorId response)
                   (TaskResultResponse.errorCode response)
                   (TaskResultResponse.errorDescription response) ;;
  ret response.

(** [result.status == "ready" and result.solution]: the solution when the
    test holds (a model instance is always true, [None] is false). *)
Definition ready_solution (result : TaskResultResponse.t) : option Solution.t :=
  match TaskResultResponse.status result with
  | Some s => if String.eqb s "ready" then TaskResultResponse.solution result else None
  | None => None
  end.

(** The [while elapsed < timeout] loop of [solve], entered with the given
    [elapsed]. [Some solution] stands for the [return] inside the loop,
    [None] for leaving the loop because the test failed. One unit of fuel
    is one run of the loop body. *)
Fixpoint poll_loop (fuel : nat) (self : YesCaptchaClient) (task_id : string)
    (poll_interval timeout elapsed : float) : M (option Solution.t) :=
  if ltb elapsed timeout then
    match fuel with
    | O => out_of_fuel
    | S fuel' =>
        result <- get_task_result self task_id ;;
        match ready_solution result with
        | Some solution => ret (Some solution)
        | None =>
            _ <- sleep poll_interval ;;
            poll_loop fuel' self task_id poll_interval timeout
                      (add elapsed poll_interval)
        end
    end
  else ret None.

Definition timeout_description (task_id : string) (timeout : float) : string :=
  "任务 " +:+ task_id +:+ " 在 " +:+ format_float timeout +:+ " 秒后超时".

(** The part of [solve] that follows the creation of the task: the loop,
    then the [raise TaskTimeoutError(...)] after it. *)
Definition solve_polling (fuel : nat) (self : YesCaptchaClient) (task_id : string)
    (poll_interval timeout elapsed : float) : M Solution.t :=
  r <- poll_loop fuel self task_id poll_interval timeout elapsed ;;
  match r with
  | Some solution => ret solution
  | None =>
      raise (Api (Exceptions.mk_exception Exceptions.TaskTimeoutError 1
                    (Some "ERROR_TASK_TIMEOUT")
                    (Some (timeout_description task_id timeout))))
  end.

Definition solve (fuel : nat) (self : YesCaptchaClient) (task : Task)
    (poll_interval : float) (timeout : option float) : M Solution.t :=
  let timeout := default (Client.timeout self) timeout in
  create_response <- create_task self task ;;
  let task_id := CreateTaskResponse.taskId create_response in
  match task_id with
  | None | Some "" =>
      (* [if not task_id] *)
      raise (Api (Exceptions.mk_exception Exceptions.YesCaptchaError 1
                    (Some "ERROR_NO_TASK_ID")
                    (Some "createTask 未返回任务 ID")))
  | Some task_id =>
      solve_polling fuel self task_id poll_interval timeout zero
  end.

(** The requests to [/getTaskResult] in a trace, and the suspensions. *)
Definition is_poll (self : YesCaptchaClient) (e : event) : bool :=
  match e with
  | Post url _ => String.eqb url (base_url self +:+ "/getTaskResult")
  | Sleep _ => false
  end.

Definition is_sleep (e : event) : bool :=
  match e with
  | Sleep _ => true
  | Post _ _ => false
  end.

Definition polls (self : YesCaptchaClient) (w : world) : nat :=
  length (List.filter (is_poll self) (trace w)).

Definition sleeps (w : world) : nat :=
  length (List.filter is_sleep (trace w)).

(** The request [get_task_result] sends for [task_id]. *)
Definition poll_event (self : YesCaptchaClient) (task_id : string) : event :=
  Post (base_url self +:+ "/getTaskResult")
       (VDict [ ("clientKey", VStr (client_key self)); ("taskId", VStr task_id) ]).

(** An event that is a poll for [task_id] or a suspension. *)
Definition poll_or_sleep (self : YesCaptchaClient) (task_id : string) (e : event) : Prop :=
  match e with
  | Post _ _ => e = poll_event self task_id
  | Sleep _ => True
  end.


End Workflow.

Arguments mk_world {server} srv trace.
Arguments srv {server} w.
Arguments trace {server} w.
Arguments ret {server A} a w.
Arguments raise {server A} e w.
Arguments bind {server A B} c k w.
Arguments validated {server A} r w.
Arguments check_error {server} error_id error_code error_description w.
Arguments sleep {server} delay w.
Arguments _request {server} http_post self endpoint payload w.
Arguments create_task {server} http_post self task w.
Arguments get_task_result {server} http_post self task_id w.
Arguments poll_loop {server} http_post fuel self task_id poll_interval timeout elapsed w.
Arguments solve_polling {server} http_post format_float fuel self task_id
  poll_interval timeout elapsed w.
Arguments solve {server} http_post format_float fuel self task poll_interval timeout w.
Arguments polls {server} self w.
Arguments sleeps {server} w.
Arguments get_balance {server} http_post float_of_int self w.

End Client.

(* ===================================================================== *)
(** ** client.py: the life of the HTTP client *)
(* ===================================================================== *)

Module Lifecycle.

(** The [httpx.AsyncClient] objects created so far are numbered in order of
    creation, from 0. [_client] is the attribute of the [YesCaptchaClient],
    [closed] the set of objects on which [aclose()] has run. *)
Record state : Type := mk_state {
  _client : option nat;
  created : nat;
  closed : gset nat
}.

(** After [YesCaptchaClient.__init__]. *)
Definition initial : state := mk_state None 0 ∅.

(** [async def __aenter__] *)
Definition __aenter__ (st : state) : state :=
  mk_state (Some (created st)) (S (created st)) (closed st).

(** [async def close]; [__aexit__] has the same body. *)
Definition close (st : state) : state :=
  match _client st with
  | Some h => mk_state None (created st) ({[h]} ∪ closed st)
  | None => st
  end.

Definition __aexit__ (st : state) : state := close st.

(** The property [client]: the HTTP client it returns, and the new state. *)
Definition client (st : state) : nat * state :=
  match _client st with
  | None => (created st, mk_state (Some (created st)) (S (created st)) (closed st))
  | Some h => (h, st)
  end.

(** The calls a user can make, [Request] standing for any method that goes
    through [_request] (it reads the property [client]). *)
Inductive call : Type :=
| Enter
| Exit
| Request
| Close.

Definition step (st : state) (c : call) : state :=
  match c with
  | Enter => __aenter__ st
  | Exit => __aexit__ st
  | Request => snd (client st)
  | Close => close st
  end.

Definition run (calls : list call) (st : state) : state :=
  fold_left step calls st.

(** An HTTP client that exists and has not been closed. *)
Definition is_open (st : state) (h : nat) : Prop :=
  (h < created st)%nat /\ h ∉ closed st.

(** Every HTTP client created so far, other than the one in [_client], has
    been closed. *)
Definition others_closed (st : state) : Prop :=
  forall h, (h < created st)%nat -> _client st <> Some h -> h ∈ closed st.

Definition is_enter (c : call) : bool :=
  match c with
  | Enter => true
  | _ => false
  end.

End Lifecycle.

(* ===================================================================== *)
(** ** The table of error kinds and the documented scenarios *)
(* ===================================================================== *)

Module Table.
Import Exceptions.

(** The table of section 4.2 of the specification, row by row: the kind
    each error code stands for, and the generic kind for any other code. *)
Definition kind_of_code (code : string) : error_class :=
  if String.eqb code "ERROR_TASK_TIMEOUT" then TaskTimeoutError
  else if String.eqb code "ERROR_ZERO_BALANCE" then InsufficientBalanceError
  else if String.eqb code "ERROR_KEY_DOES_NOT_EXIST" then InvalidKeyError
  else if String.eqb code "ERROR_CAPTCHA_UNSOLVABLE" then TaskUnsolvableError
  else if String.eqb code "ERROR_IP_BLOCKED_5MIN" then IPBlockedError
  else if String.eqb code "ERROR_IP_BANNED" then IPBlockedError
  else if String.eqb code "ERROR_NO_SLOT_AVAILABLE" then NoSlotAvailableError
  else if String.eqb code "ERROR_NO_SLOT_AVAILABLE_BLOCK" then NoSlotAvailableError
  else if String.eqb code "ERROR_TASK_NOT_SUPPORTED" then TaskNotSupportedError
  else if String.eqb code "ERROR_TASKID_INVALID" then InvalidTaskIdError
  else if String.eqb code "ERROR_NO_SUCH_CAPCHA_ID" then InvalidTaskIdError
  else if String.eqb code "ERROR_BAD_REQUEST" then BadRequestError
  else if String.eqb code "ERROR_SERVICE_UNAVALIABLE" then ServiceUnavailableError
  else YesCaptchaError.

End Table.

Module Scenarios.
Import PyFloat Pydantic Models Client.

Definition client : YesCaptchaClient :=
  __init__ "test-key-12345" INTERNATIONAL_API f120_0.

Definition turnstile_task : Task :=
  Task_TurnstileTaskProxyless
    (TurnstileTaskProxyless.mk "TurnstileTaskProxyless"
       "https://example.com" "0x4AAAAAAAB...").

Definition processing : value :=
  VDict [ ("errorId", VInt 0); ("status", VStr "processing") ].

Definition ready : value :=
  VDict [ ("errorId", VInt 0); ("status", VStr "ready");
          ("solution", VDict [ ("token", VStr "solved-token-xyz") ]) ].

Definition created (task_id : string) : value :=
  VDict [ ("errorId", VInt 0); ("taskId", VStr task_id) ].

(** A service that answers [processing] to the first three polls and
    [ready] from then on; its state is the number of polls answered. *)
Definition polling_server (url : string) (payload : value) (n : nat) : reply * nat :=
  if String.eqb url "https://api.yescaptcha.com/createTask"
  then (Json (created "poll-task-123"), n)
  else if String.eqb url "https://api.yescaptcha.com/getTaskResult"
  then (Json (if (n <? 3)%nat then processing else ready), S n)
  else (Failure "404 Not Found", n).

(** A service that answers [processing] to every poll. *)
Definition processing_server (url : string) (payload : value) (s : unit) : reply * unit :=
  if String.eqb url "https://api.yescaptcha.com/createTask"
  then (Json (created "timeout-task"), s)
  else if String.eqb url "https://api.yescaptcha.com/getTaskResult"
  then (Json processing, s)
  else (Failure "404 Not Found", s).

(** A service whose [createTask] reports success without a task id. *)
Definition no_id_server (url : string) (payload : value) (s : unit) : reply * unit :=
  if String.eqb url "https://api.yescaptcha.com/createTask"
  then (Json (VDict [ ("errorId", VInt 0) ]), s)
  else (Json ready, s).

(** Python's formatting of the timeouts that occur in the scenarios; no
    other float is formatted there. *)
Definition repr (x : float) : string :=
  if SFeqb x f0_3 then "0.3"
  else if SFeqb x f5_0 then "5.0"
  else if SFeqb x f120_0 then "120.0"
  else if SFeqb x zero then "0.0"
  else "?".

(** The payload of the scenario on extra fields of a solution. *)
Definition custom_payload : value :=
  VDict [ ("token", VStr "xyz"); ("customField", VStr "customValue") ].

(** A service that cannot be reached. *)
Definition down_server (url : string) (payload : value) (s : unit) : reply * unit :=
  (Failure "503 Service Unavailable", s).

(** A service that answers every request with the same body. *)
Definition constant_server (body : value) (url : string) (payload : value) (s : unit)
    : reply * unit :=
  (Json body, s).

Definition zero_balance_error : value :=
  VDict [ ("errorId", VInt 1); ("errorCode", VStr "ERROR_ZERO_BALANCE");
          ("errorDescription", VStr "Account balance is insufficient") ].

Definition balance_reply : value :=
  VDict [ ("errorId", VInt 0); ("balance", VInt 10000); ("inviteBy", VStr "12345") ].

(** [float(n)] for an int, rounding to the nearest float. *)
Definition float_of_int (n : Z) : option float :=
  Some (binary_normalize prec emax n 0 false).

(** A service that creates the task and then answers every poll with
    status [ready] but no solution. *)
Definition ready_without_solution_server (url : string) (payload : value) (s : unit)
    : reply * unit :=
  if String.eqb url "https://api.yescaptcha.com/createTask"
  then (Json (created "empty-task"), s)
  else (Json (VDict [ ("errorId", VInt 0); ("status", VStr "ready") ]), s).

(** A service that creates the task and then reports that the task id is
    not valid. *)
Definition invalid_task_server (url : string) (payload : value) (s : unit)
    : reply * unit :=
  if String.eqb url "https://api.yescaptcha.com/createTask"
  then (Json (created "gone-task"), s)
  else (Json (VDict [ ("errorId", VInt 1); ("errorCode", VStr "ERROR_TASKID_INVALID");
                      ("errorDescription", VStr "Task does not exist") ]), s).

End Scenarios.

(* ===================================================================== *)
(** ** Properties of the error mapping *)
(* ===================================================================== *)

Section ErrorMapping.
Import Exceptions Table.

Lemma or_empty_Some (code : string) : or_empty (Some code) = code.
Proof. destruct code; reflexivity. Qed.

(** Looking a code up in [ERROR_CODE_MAP], with [YesCaptchaError] as the
    default, gives the kind of the table. *)
Lemma ERROR_CODE_MAP_table (code : string) :
  default YesCaptchaError (ERROR_CODE_MAP !! code) = kind_of_code code.
Proof.
  unfold kind_of_code.
  repeat match goal with
  | |- context [String.eqb code ?k] =>
      destruct (String.eqb_spec code k) as [->|];
      [ vm_compute; reflexivity | ]
  end.
  unfold ERROR_CODE_MAP.
  rewrite !lookup_insert_ne by congruence.
  rewrite lookup_empty. reflexivity.
Qed.

(** C1. With [errorId != 0], [raise_for_error] raises, for every error code,
    an exception of exactly the kind the table gives for that code (the
    generic kind for a code outside the table), and the exception carries the
    error id, the code and the description it was given. *)
Theorem raise_for_error_mapped
    (error_id : Z) (error_code : string) (error_description : option string) :
  error_id <> 0 ->
  raise_for_error error_id (Some error_code) error_description
  = inr (mk_exception (kind_of_code error_code)
                      error_id (Some error_code) error_description).
Proof.
  intros Hid. unfold raise_for_error.
  destruct (Z.eqb_spec error_id 0) as [|_]; [contradiction|].
  rewrite or_empty_Some, ERROR_CODE_MAP_table. reflexivity.
Qed.

Lemma raise_for_error_mapped_witness :
  raise_for_error 1 (Some "ERROR_ZERO_BALANCE") (Some "Account balance is insufficient")
  = inr (mk_exception InsufficientBalanceError 1 (Some "ERROR_ZERO_BALANCE")
                      (Some "Account balance is insufficient")).
Proof. apply (raise_for_error_mapped 1 "ERROR_ZERO_BALANCE"). lia. Defined.

(** C2. With [errorId == 0], [raise_for_error] returns normally whatever the
    code and the description are, [None] included. *)
Theorem raise_for_error_zero_noop (error_code error_description : option string) :
  raise_for_error 0 error_code error_description = inl tt.
Proof.
  unfold raise_for_error. rewrite Z.eqb_refl. reflexivity.
Qed.

End ErrorMapping.

(* ===================================================================== *)
(** ** Properties of field validation *)
(* ===================================================================== *)

Section ValidatorLemmas.
Import Pydantic.

Lemma existsb_eqb_In (s : string) (l : list string) :
  existsb (String.eqb s) l = true <-> In s l.
Proof.
  rewrite existsb_exists. split.
  - intros (x & Hx & Heq). apply String.eqb_eq in Heq. now subst.
  - intros H. exists s. split; [assumption | apply String.eqb_refl].
Qed.

Lemma as_literal_In (choices : list string) (s : string) :
  In s choices -> as_literal choices (VStr s) = Some s.
Proof.
  intros H. unfold as_literal.
  apply existsb_eqb_In in H. now rewrite H.
Qed.

Lemma as_literal_not_In (choices : list string) (s : string) :
  ~ In s choices -> as_literal choices (VStr s) = None.
Proof.
  intros H. unfold as_literal.
  destruct (existsb (String.eqb s) choices) eqn:E; [|reflexivity].
  apply existsb_eqb_In in E. contradiction.
Qed.

Lemma as_literal_Some (choices : list string) (v : value) (s : string) :
  as_literal choices v = Some s -> v = VStr s /\ In s choices.
Proof.
  destruct v; simpl; try discriminate.
  destruct (existsb (String.eqb s0) choices) eqn:E; [|discriminate].
  intros [= ->]. split; [reflexivity | now apply existsb_eqb_In].
Qed.

Lemma with_default_literal (d : list (string * value)) (name : string)
    (choices : list string) (dflt s : string) :
  In dflt choices ->
  with_default d name (as_literal choices) dflt = Some s ->
  In s choices.
Proof.
  unfold with_default. intros Hd.
  destruct (dict_get d name).
  - intros H. now apply as_literal_Some in H.
  - now intros [= <-].
Qed.

Lemma as_list_str_VStrs (l : list string) : as_list as_str (VStrs l) = Some l.
Proof.
  unfold as_list, VStrs. induction l as [|s l IH]; [reflexivity|].
  cbn. cbn in IH. rewrite IH. reflexivity.
Qed.

Lemma as_dict_any_VDict (d : list (string * value)) :
  as_dict as_any (VDict d) = Some d.
Proof.
  unfold as_dict. induction d as [|[k v] d IH]; [reflexivity|].
  cbn. cbn in IH. rewrite IH. reflexivity.
Qed.

Lemma dict_get_In {A : Type} (d : list (string * A)) (k : string) (v : A) :
  dict_get d k = Some v -> In (k, v) d.
Proof.
  induction d as [|[k' v'] d IH]; simpl; [discriminate|].
  destruct (String.eqb_spec k' k) as [->|].
  - intros [= ->]. now left.
  - intros H. right. now apply IH.
Qed.

(** Looking a key up after [exclude_none], when the keys are distinct. *)
Lemma dict_get_exclude_none (d : list (string * value)) (k : string) :
  List.NoDup (map fst d) ->
  dict_get (exclude_none d) k
  = match dict_get d k with
    | Some VNone => None
    | o => o
    end.
Proof.
  unfold exclude_none.
  induction d as [|[k' v'] d IH]; simpl; [reflexivity|].
  intros Hnd. inversion Hnd as [|? ? Hnotin Hnd']; subst.
  destruct (String.eqb_spec k' k) as [->|Hne].
  - destruct v'; simpl; rewrite ?String.eqb_refl; try reflexivity.
    rewrite (IH Hnd').
    destruct (dict_get d k) eqn:E; [|reflexivity].
    exfalso. apply Hnotin. apply dict_get_In in E.
    change k with (fst (k, v)). now apply in_map.
  - destruct (is_none v'); simpl.
    + now apply IH.
    + destruct (String.eqb_spec k' k); [contradiction|]. now apply IH.
Qed.

Lemma exclude_none_no_null (d : list (string * value)) (k : string) (v : value) :
  In (k, v) (exclude_none d) -> v <> VNone.
Proof.
  unfold exclude_none. rewrite filter_In. intros [_ H] ->. discriminate.
Qed.

(** Looking a key up after filtering on the keys. *)
Lemma dict_get_filter_key {A : Type} (p : string -> bool)
    (d : list (string * A)) (k : string) :
  dict_get (List.filter (fun kv => p kv.1) d) k
  = if p k then dict_get d k else None.
Proof.
  induction d as [|[k' v'] d IH]; simpl.
  - now destruct (p k).
  - destruct (String.eqb_spec k' k) as [->|Hne].
    + destruct (p k) eqn:Ek; simpl.
      * rewrite ?String.eqb_refl. reflexivity.
      * rewrite IH, ?Ek. reflexivity.
    + destruct (p k'); simpl; [|exact IH].
      destruct (String.eqb_spec k' k); [contradiction | exact IH].
Qed.

End ValidatorLemmas.

(* ===================================================================== *)
(** ** Properties of the task models *)
(* ===================================================================== *)

Section TaskModels.
Import Pydantic Models.

#[local] Arguments as_literal : simpl never.
#[local] Arguments as_list : simpl never.
#[local] Arguments as_dict : simpl never.
#[local] Arguments with_default : simpl never.
#[local] Arguments required : simpl never.
#[local] Arguments optional : simpl never.

(** Take a successful validation apart: one equation per field. *)
Ltac invert_validate H :=
  unfold model_validate,
    ImageToTextTask.model_validate, NoCaptchaTaskProxyless.model_validate,
    RecaptchaV2EnterpriseTaskProxyless.model_validate,
    RecaptchaV3TaskProxyless.model_validate, RecaptchaV3EnterpriseTask.model_validate,
    HCaptchaTaskProxyless.model_validate, HCaptchaClassification.model_validate,
    ReCaptchaV2Classification.model_validate, FunCaptchaClassification.model_validate,
    TurnstileTaskProxyless.model_validate, CloudFlareTask.model_validate in H;
  simplify_option_eq.

Lemma validated_type_literal (c : task_class) (data : value) (task : Task) :
  model_validate c data = Some task ->
  class_of task = c /\ In (task_type task) (type_literals c).
Proof.
  intros H. destruct c; invert_validate H.
  all: split; [reflexivity|].
  all: simpl.
  all: match goal with
       | Ht : with_default _ "type" (as_literal ?l) ?dflt = Some _ |- _ =>
           apply (with_default_literal _ _ _ _ _) in Ht; [exact Ht|]
       end.
  all: simpl; tauto.
Qed.

(** Unfold the validation of a dumped task down to the field validators. *)
Ltac dump_then_validate :=
  unfold model_dump_exclude_none, exclude_none, model_validate, fields,
    ImageToTextTask.model_validate, NoCaptchaTaskProxyless.model_validate,
    RecaptchaV2EnterpriseTaskProxyless.model_validate,
    RecaptchaV3TaskProxyless.model_validate, RecaptchaV3EnterpriseTask.model_validate,
    HCaptchaTaskProxyless.model_validate, HCaptchaClassification.model_validate,
    ReCaptchaV2Classification.model_validate, FunCaptchaClassification.model_validate,
    TurnstileTaskProxyless.model_validate, CloudFlareTask.model_validate,
    ImageToTextTask.fields, NoCaptchaTaskProxyless.fields,
    RecaptchaV2EnterpriseTaskProxyless.fields,
    RecaptchaV3TaskProxyless.fields, RecaptchaV3EnterpriseTask.fields,
    HCaptchaTaskProxyless.fields, HCaptchaClassification.fields,
    ReCaptchaV2Classification.fields, FunCaptchaClassification.fields,
    TurnstileTaskProxyless.fields, CloudFlareTask.fields,
    with_default, required, optional.

(** Validating the dump of a task whose [type] is one of the literals of
    its class gives the task back. *)
Lemma validate_dump (task : Task) :
  In (task_type task) (type_literals (class_of task)) ->
  model_validate (class_of task) (VDict (model_dump_exclude_none task)) = Some task.
Proof.
  intros Hty. apply as_literal_In in Hty.
  destruct task as [x|x|x|x|x|x|x|x|x|x|x]; destruct x; cbn in Hty;
    repeat match goal with o : option _ |- _ => destruct o end;
    dump_then_validate; cbn;
    rewrite ?Hty; cbn;
    rewrite ?as_list_str_VStrs, ?as_dict_any_VDict; cbn;
    rewrite ?as_list_str_VStrs, ?as_dict_any_VDict; cbn;
    rewrite ?as_list_str_VStrs, ?as_dict_any_VDict; cbn;
    reflexivity.
Qed.

(** X24. For every task class, an input in which one of the required
    fields of the class is missing fails validation, whatever else it
    holds. *)
Theorem missing_required_field_fails_validation
    (c : task_class) (f : string) (d : list (string * value)) :
  In f (required_fields c) ->
  dict_get d f = None ->
  model_validate c (VDict d) = None.
Proof.
  intros Hin Hmiss.
  assert (Hreq : forall A (conv : value -> option A), required d f conv = None)
    by (intros; unfold required; now rewrite Hmiss).
  destruct c; cbn in Hin; intuition subst;
    unfold model_validate,
      ImageToTextTask.model_validate, NoCaptchaTaskProxyless.model_validate,
      RecaptchaV2EnterpriseTaskProxyless.model_validate,
      RecaptchaV3TaskProxyless.model_validate, RecaptchaV3EnterpriseTask.model_validate,
      HCaptchaTaskProxyless.model_validate, HCaptchaClassification.model_validate,
      ReCaptchaV2Classification.model_validate, FunCaptchaClassification.model_validate,
      TurnstileTaskProxyless.model_validate, CloudFlareTask.model_validate;
    cbn; rewrite ?Hreq;
    repeat match goal with
           | |- context [mbind _ ?o] =>
               lazymatch o with
               | None => fail
               | Some _ => fail
               | _ => destruct o; cbn
               end
           end;
    reflexivity.
Qed.

Lemma missing_required_field_fails_validation_witness :
  model_validate C_RecaptchaV3TaskProxyless
    (VDict [ ("websiteURL", VStr "https://example.com");
             ("websiteKey", VStr "6Le-wvkS...") ]) = None.
Proof.
  apply (missing_required_field_fails_validation C_RecaptchaV3TaskProxyless "pageAction").
  - simpl. right. right. left. reflexivity.
  - reflexivity.
Defined.

(** A [type] outside the literals of the class makes validation fail. *)
Lemma foreign_type_fails (c : task_class) (d : list (string * value)) (s : string) :
  dict_get d "type" = Some (VStr s) ->
  ~ In s (type_literals c) ->
  model_validate c (VDict d) = None.
Proof.
  intros Hget Hnot.
  apply as_literal_not_In in Hnot.
  destruct c;
    unfold model_validate,
      ImageToTextTask.model_validate, NoCaptchaTaskProxyless.model_validate,
      RecaptchaV2EnterpriseTaskProxyless.model_validate,
      RecaptchaV3TaskProxyless.model_validate, RecaptchaV3EnterpriseTask.model_validate,
      HCaptchaTaskProxyless.model_validate, HCaptchaClassification.model_validate,
      ReCaptchaV2Classification.model_validate, FunCaptchaClassification.model_validate,
      TurnstileTaskProxyless.model_validate, CloudFlareTask.model_validate,
      with_default;
    cbn; rewrite Hget; cbn in Hnot; rewrite Hnot; reflexivity.
Qed.

Lemma fields_keys_NoDup (task : Task) : List.NoDup (map fst (fields task)).
Proof.
  destruct task as [x|x|x|x|x|x|x|x|x|x|x]; destruct x; cbn;
    repeat (constructor; [cbn; intuition discriminate|]); constructor.
Qed.

Lemma fields_type (task : Task) :
  dict_get (fields task) "type" = Some (VStr (task_type task)).
Proof. destruct task as [x|x|x|x|x|x|x|x|x|x|x]; reflexivity. Qed.

Lemma fields_required (task : Task) (f : string) :
  In f (required_fields (class_of task)) ->
  exists v, dict_get (fields task) f = Some v /\ is_none v = false.
Proof.
  destruct task as [x|x|x|x|x|x|x|x|x|x|x]; cbn; intuition subst;
    eexists; (split; [reflexivity|reflexivity]).
Qed.

(** C6. A task built by validation serializes, with
    [model_dump(exclude_none=True)], to one object of field/value items that
    holds the discriminator [type] and every required field of its class;
    a field whose value is [None] has no item at all, and no item holds
    [None]. Validating the serialized object gives the same task again, so a
    second round of serialization yields the same object. *)
Theorem model_dump_shape_and_round_trip
    (c : task_class) (data : value) (task : Task) :
  model_validate c data = Some task ->
  dict_get (model_dump_exclude_none task) "type" = Some (VStr (task_type task))
  /\ (forall f, In f (required_fields c) ->
        exists v, dict_get (model_dump_exclude_none task) f = Some v /\ v <> VNone)
  /\ (forall f, dict_get (fields task) f = Some VNone ->
        dict_get (model_dump_exclude_none task) f = None)
  /\ (forall k v, In (k, v) (model_dump_exclude_none task) -> v <> VNone)
  /\ model_validate c (VDict (model_dump_exclude_none task)) = Some task.
Proof.
  intros Hval. apply validated_type_literal in Hval as [<- Hty].
  unfold model_dump_exclude_none at 1 2 3 4.
  repeat split.
  - rewrite dict_get_exclude_none by apply fields_keys_NoDup.
    now rewrite fields_type.
  - intros f Hf. apply fields_required in Hf as (v & Hget & Hv).
    exists v. rewrite dict_get_exclude_none by apply fields_keys_NoDup.
    rewrite Hget. destruct v; try discriminate; split; congruence.
  - intros f Hf. rewrite dict_get_exclude_none by apply fields_keys_NoDup.
    now rewrite Hf.
  - intros k v. apply exclude_none_no_null.
  - now apply validate_dump.
Qed.

Lemma model_dump_shape_and_round_trip_witness :
  model_validate C_NoCaptchaTaskProxyless
    (VDict (model_dump_exclude_none
       (Task_NoCaptchaTaskProxyless
          (NoCaptchaTaskProxyless.mk "NoCaptchaTaskProxyless"
             "https://example.com" "6Le-wvkS..." false))))
  = Some (Task_NoCaptchaTaskProxyless
            (NoCaptchaTaskProxyless.mk "NoCaptchaTaskProxyless"
               "https://example.com" "6Le-wvkS..." false)).
Proof.
  apply (model_dump_shape_and_round_trip C_NoCaptchaTaskProxyless
           (VDict [ ("websiteURL", VStr "https://example.com");
                    ("websiteKey", VStr "6Le-wvkS...") ])).
  reflexivity.
Defined.

(** The serialization checked by the test of [NoCaptchaTaskProxyless]. *)
Example model_dump_NoCaptchaTaskProxyless :
  model_dump_exclude_none
    (Task_NoCaptchaTaskProxyless
       (NoCaptchaTaskProxyless.mk "NoCaptchaTaskProxyless"
          "https://example.com" "6Le-wvkS..." false))
  = [ ("type", VStr "NoCaptchaTaskProxyless");
      ("websiteURL", VStr "https://example.com");
      ("websiteKey", VStr "6Le-wvkS...");
      ("isInvisible", VBool false) ].
Proof. reflexivity. Qed.

(** C7. The code does not reject an empty required list. The field
    [queries] of [HCaptchaClassification] is declared without a length
    constraint, so validation accepts the empty list: an input whose
    [queries] is the empty list and whose other fields are valid validates,
    to a task with no queries, and so does the input that holds nothing but
    an empty [queries]. *)
Theorem empty_queries_accepted :
  (forall (d : list (string * value)) (type : string)
          (question : option string) (anchors : option (list string)),
     dict_get d "queries" = Some (VList []) ->
     with_default d "type" (as_literal HCaptchaClassification.type_literals)
       "HCaptchaClassification" = Some type ->
     optional d "question" as_str = Some question ->
     optional d "anchors" (as_list as_str) = Some anchors ->
     model_validate C_HCaptchaClassification (VDict d)
     = Some (Task_HCaptchaClassification
               (HCaptchaClassification.mk type [] question anchors)))
  /\ model_validate C_HCaptchaClassification (VDict [ ("queries", VList []) ])
     = Some (Task_HCaptchaClassification
               (HCaptchaClassification.mk "HCaptchaClassification" [] None None)).
Proof.
  split; [|reflexivity].
  intros d type question anchors Hq Ht Hqu Han.
  unfold model_validate, HCaptchaClassification.model_validate.
  cbn [as_object mbind option_bind]. rewrite Ht. cbn.
  unfold required. rewrite Hq. cbn. rewrite Hqu. cbn. rewrite Han. reflexivity.
Qed.

Lemma empty_queries_accepted_witness :
  model_validate C_HCaptchaClassification
    (VDict [ ("queries", VList []); ("question", VStr "0x1234") ])
  = Some (Task_HCaptchaClassification
            (HCaptchaClassification.mk "HCaptchaClassification" []
               (Some "0x1234") None)).
Proof.
  apply (proj1 empty_queries_accepted
           [ ("queries", VList []); ("question", VStr "0x1234") ]).
  - reflexivity.
  - reflexivity.
  - reflexivity.
  - reflexivity.
Defined.

(** C8. For every task class, the [type] of a validated instance is one of
    the literals the class declares, and input whose [type] is a string
    outside these literals fails validation. *)
Theorem type_is_one_of_the_literals (c : task_class) :
  (forall (data : value) (task : Task),
     model_validate c data = Some task ->
     In (task_type task) (type_literals c))
  /\ (forall (d : list (string * value)) (s : string),
        dict_get d "type" = Some (VStr s) ->
        ~ In s (type_literals c) ->
        model_validate c (VDict d) = None).
Proof.
  split.
  - intros data task H. now apply validated_type_literal in H.
  - apply foreign_type_fails.
Qed.

Lemma type_is_one_of_the_literals_witness :
  In "TurnstileTaskProxylessM1" (type_literals C_TurnstileTaskProxyless)
  /\ model_validate C_TurnstileTaskProxyless
       (VDict [ ("type", VStr "TurnstileTaskProxylessM2");
                ("websiteURL", VStr "https://example.com");
                ("websiteKey", VStr "0x4AAAAAAAB...") ]) = None.
Proof.
  split.
  - apply (proj1 (type_is_one_of_the_literals C_TurnstileTaskProxyless)
             (VDict [ ("type", VStr "TurnstileTaskProxylessM1");
                      ("websiteURL", VStr "https://example.com");
                      ("websiteKey", VStr "0x4AAAAAAAB...") ])
             (Task_TurnstileTaskProxyless
                (TurnstileTaskProxyless.mk "TurnstileTaskProxylessM1"
                   "https://example.com" "0x4AAAAAAAB..."))).
    reflexivity.
  - apply (proj2 (type_is_one_of_the_literals C_TurnstileTaskProxyless)
             _ "TurnstileTaskProxylessM2").
    + reflexivity.
    + simpl. intuition discriminate.
Defined.

End TaskModels.

(* ===================================================================== *)
(** ** Properties of the solution model *)
(* ===================================================================== *)

Section SolutionModel.
Import Pydantic Models Scenarios.

Lemma model_extra_filter (d : list (string * value)) (s : Solution.t) :
  Solution.model_validate (VDict d) = Some s ->
  Solution.model_extra s = List.filter Solution.is_extra d.
Proof.
  unfold Solution.model_validate. intros H. simplify_option_eq. reflexivity.
Qed.

Lemma token_validated (d : list (string * value)) (s : Solution.t) :
  Solution.model_validate (VDict d) = Some s ->
  optional d "token" as_str = Some (Solution.token s).
Proof.
  unfold Solution.model_validate. intros H. simplify_option_eq. reflexivity.
Qed.

(** C9. Validating a solution payload keeps the items whose key is not a
    declared field: each can be read from [model_extra] with the value it had
    in the payload, next to the declared fields such as [token]. For the
    payload with [token: "xyz"] and [customField: "customValue"], both values
    can be read from the validated solution. *)
Theorem solution_keeps_extra_fields :
  (forall (d : list (string * value)) (s : Solution.t),
     Solution.model_validate (VDict d) = Some s ->
     (forall k, ~ In k Solution.declared ->
        dict_get (Solution.model_extra s) k = dict_get d k)
     /\ (forall x, dict_get d "token" = Some (VStr x) -> Solution.token s = Some x))
  /\ (exists s : Solution.t,
        Solution.model_validate custom_payload = Some s
        /\ Solution.token s = Some "xyz"
        /\ dict_get (Solution.model_extra s) "customField" = Some (VStr "customValue")).
Proof.
  split.
  - intros d s Hval. split.
    + intros k Hk. rewrite (model_extra_filter d s Hval).
      unfold Solution.is_extra.
      rewrite (dict_get_filter_key
                 (fun k => negb (existsb (String.eqb k) Solution.declared))).
      destruct (existsb (String.eqb k) Solution.declared) eqn:E; [|reflexivity].
      apply existsb_eqb_In in E. contradiction.
    + intros x Hx. apply token_validated in Hval.
      unfold optional in Hval. rewrite Hx in Hval. cbn in Hval. congruence.
  - eexists. repeat split; reflexivity.
Qed.

Lemma solution_keeps_extra_fields_witness :
  dict_get
    (Solution.model_extra
       (Solution.mk None (Some "xyz") None None None None None
          [ ("customField", VStr "customValue") ]))
    "customField"
  = dict_get [ ("token", VStr "xyz"); ("customField", VStr "customValue") ] "customField".
Proof.
  apply (proj1 (proj1 solution_keeps_extra_fields
                  [ ("token", VStr "xyz"); ("customField", VStr "customValue") ]
                  (Solution.mk None (Some "xyz") None None None None None
                     [ ("customField", VStr "customValue") ])
                  eq_refl)).
  simpl. intuition discriminate.
Defined.

End SolutionModel.

(* ===================================================================== *)
(** ** Properties of the client workflow *)
(* ===================================================================== *)

Section WorkflowLemmas.
Import PyFloat Pydantic Models Client.

Context {server : Type}.
Variable http_post : string -> value -> server -> reply * server.
Variable format_float : float -> string.

Lemma get_task_result_trace (self : YesCaptchaClient) (task_id : string)
    (w w' : world server) (r : outcome TaskResultResponse.t) :
  get_task_result http_post self task_id w = (r, w') ->
  trace w' = (trace w ++ [poll_event self task_id])%list.
Proof.
  unfold get_task_result, bind, _request, validated, check_error, ret, raise.
  destruct (http_post _ _ (srv w)) as [[data|reason] s]; cbn.
  - destruct (TaskResultResponse.model_validate data) as [resp|]; cbn.
    + destruct (Exceptions.raise_for_error _ _ _); cbn; now intros [= _ <-].
    + now intros [= _ <-].
  - now intros [= _ <-].
Qed.

Lemma create_task_trace (self : YesCaptchaClient) (task : Task)
    (w w' : world server) (r : outcome CreateTaskResponse.t) :
  create_task http_post self task w = (r, w') ->
  trace w' = (trace w ++
    [ Post (base_url self +:+ "/createTask")
        (VDict [ ("clientKey", VStr (client_key self));
                 ("task", VDict (model_dump_exclude_none task));
                 ("softId", VStr SOFT_ID) ]) ])%list.
Proof.
  unfold create_task, bind, _request, validated, check_error, ret, raise.
  destruct (http_post _ _ (srv w)) as [[data|reason] s]; cbn.
  - destruct (CreateTaskResponse.model_validate data) as [resp|]; cbn.
    + destruct (Exceptions.raise_for_error _ _ _); cbn; now intros [= _ <-].
    + now intros [= _ <-].
  - now intros [= _ <-].
Qed.

(** A response that [create_task] returns reports success. *)
Lemma create_task_success (self : YesCaptchaClient) (task : Task)
    (w w' : world server) (response : CreateTaskResponse.t) :
  create_task http_post self task w = (Return response, w') ->
  CreateTaskResponse.errorId response = 0.
Proof.
  unfold create_task, bind, _request, validated, check_error, ret, raise.
  destruct (http_post _ _ (srv w)) as [[data|reason] s]; cbn; [|discriminate].
  destruct (CreateTaskResponse.model_validate data) as [resp|]; cbn; [|discriminate].
  unfold Exceptions.raise_for_error.
  destruct (Z.eqb_spec (CreateTaskResponse.errorId resp) 0); cbn; [|discriminate].
  now intros [= <- _].
Qed.

(** One run of the loop body. *)
Lemma poll_loop_unfold (fuel : nat) (self : YesCaptchaClient) (task_id : string)
    (poll_interval timeout elapsed : float) (w : world server) :
  poll_loop http_post (S fuel) self task_id poll_interval timeout elapsed w
  = if ltb elapsed timeout then
      match get_task_result http_post self task_id w with
      | (Return result, w1) =>
          match ready_solution result with
          | Some solution => (Return (Some solution), w1)
          | None =>
              poll_loop http_post fuel self task_id poll_interval timeout
                (add elapsed poll_interval)
                (mk_world (srv w1) (trace w1 ++ [Sleep poll_interval])%list)
          end
      | (Raise e, w1) => (Raise e, w1)
      | (OutOfFuel, w1) => (OutOfFuel, w1)
      end
    else (Return None, w).
Proof.
  cbn [poll_loop]. destruct (ltb elapsed timeout); [|reflexivity].
  unfold bind at 1.
  destruct (get_task_result http_post self task_id w) as [[result|e|] w1];
    try reflexivity.
  destruct (ready_solution result); reflexivity.
Qed.

Lemma poll_loop_exit (fuel : nat) (self : YesCaptchaClient) (task_id : string)
    (poll_interval timeout elapsed : float) (w : world server) :
  ltb elapsed timeout = false ->
  poll_loop http_post fuel self task_id poll_interval timeout elapsed w
  = (Return None, w).
Proof. intros H. destruct fuel; cbn [poll_loop]; now rewrite H. Qed.

(** Whatever the service answers, the loop only polls for [task_id] and
    sleeps. *)
Lemma poll_loop_events (fuel : nat) (self : YesCaptchaClient) (task_id : string)
    (poll_interval timeout : float) :
  forall (elapsed : float) (w w' : world server) (r : outcome (option Solution.t)),
    poll_loop http_post fuel self task_id poll_interval timeout elapsed w = (r, w') ->
    exists evs, trace w' = (trace w ++ evs)%list
                /\ Forall (poll_or_sleep self task_id) evs.
Proof.
  induction fuel as [|fuel IH]; intros elapsed w w' r.
  - cbn [poll_loop]. destruct (ltb elapsed timeout); intros [= _ <-];
      exists []; now rewrite app_nil_r.
  - rewrite poll_loop_unfold.
    destruct (ltb elapsed timeout).
    2:{ intros [= _ <-]. exists []. now rewrite app_nil_r. }
    destruct (get_task_result http_post self task_id w) as [[result|e|] w1] eqn:Hget;
      apply get_task_result_trace in Hget.
    + destruct (ready_solution result).
      * intros [= _ <-]. exists [poll_event self task_id].
        split; [assumption|]. repeat constructor.
      * intros Hloop. apply IH in Hloop as (evs & Htr & Hall).
        cbn in Htr. rewrite Hget, <- !app_assoc in Htr.
        eexists. split; [exact Htr|].
        repeat constructor. exact Hall.
    + intros [= _ <-]. exists [poll_event self task_id].
      split; [assumption|]. repeat constructor.
    + intros [= _ <-]. exists [poll_event self task_id].
      split; [assumption|]. repeat constructor.
Qed.

(** More fuel does not change a run that did not run out of fuel. *)
Lemma poll_loop_fuel_mono (self : YesCaptchaClient) (task_id : string)
    (poll_interval timeout : float) (fuel : nat) :
  forall (elapsed : float) (w w' : world server) (r : outcome (option Solution.t)),
    poll_loop http_post fuel self task_id poll_interval timeout elapsed w = (r, w') ->
    r <> OutOfFuel ->
    forall k,
      poll_loop http_post (fuel + k) self task_id poll_interval timeout elapsed w
      = (r, w').
Proof.
  induction fuel as [|fuel IH]; intros elapsed w w' r Hrun Hr k.
  - cbn [poll_loop] in Hrun. destruct (ltb elapsed timeout) eqn:E.
    + injection Hrun as <- _. contradiction.
    + rewrite poll_loop_exit by assumption. exact Hrun.
  - change (S fuel + k)%nat with (S (fuel + k)).
    rewrite poll_loop_unfold in *.
    destruct (ltb elapsed timeout); [|exact Hrun].
    destruct (get_task_result http_post self task_id w) as [[result|e|] w1];
      try exact Hrun.
    destruct (ready_solution result); [exact Hrun|].
    now apply IH.
Qed.

Lemma solve_polling_fuel_mono (self : YesCaptchaClient) (task_id : string)
    (poll_interval timeout elapsed : float) (fuel : nat)
    (w w' : world server) (r : outcome Solution.t) :
  solve_polling http_post format_float fuel self task_id poll_interval timeout elapsed w
  = (r, w') ->
  r <> OutOfFuel ->
  forall k,
    solve_polling http_post format_float (fuel + k) self task_id
      poll_interval timeout elapsed w = (r, w').
Proof.
  unfold solve_polling, bind. intros Hrun Hr k.
  destruct (poll_loop http_post fuel self task_id poll_interval timeout elapsed w)
    as [o w1] eqn:Hloop.
  assert (Ho : o <> OutOfFuel).
  { intros ->. injection Hrun as <- _. contradiction. }
  now rewrite (poll_loop_fuel_mono _ _ _ _ _ _ _ _ _ Hloop Ho k).
Qed.

Lemma solve_fuel_mono (self : YesCaptchaClient) (task : Task)
    (poll_interval : float) (timeout : option float) (fuel : nat)
    (w w' : world server) (r : outcome Solution.t) :
  solve http_post format_float fuel self task poll_interval timeout w = (r, w') ->
  r <> OutOfFuel ->
  forall k,
    solve http_post format_float (fuel + k) self task poll_interval timeout w
    = (r, w').
Proof.
  unfold solve, bind. intros Hrun Hr k.
  destruct (create_task http_post self task w) as [[response|e|] w1];
    try exact Hrun.
  destruct (CreateTaskResponse.taskId response) as [[|c id]|]; try exact Hrun.
  now apply solve_polling_fuel_mono.
Qed.

(** [solve] once the task is created with a task id. *)
Lemma solve_after_create (fuel : nat) (self : YesCaptchaClient) (task : Task)
    (poll_interval : float) (timeout : option float)
    (w w1 : world server) (response : CreateTaskResponse.t) (task_id : string) :
  create_task http_post self task w = (Return response, w1) ->
  CreateTaskResponse.taskId response = Some task_id ->
  task_id <> "" ->
  solve http_post format_float fuel self task poll_interval timeout w
  = solve_polling http_post format_float fuel self task_id poll_interval
      (default (Client.timeout self) timeout) zero w1.
Proof.
  intros Hcreate Hid Hne. unfold solve, bind. rewrite Hcreate. cbn. rewrite Hid.
  destruct task_id; [contradiction | reflexivity].
Qed.

(** [solve] when the created task has no task id. *)
Lemma solve_without_task_id (fuel : nat) (self : YesCaptchaClient) (task : Task)
    (poll_interval : float) (timeout : option float)
    (w w1 : world server) (response : CreateTaskResponse.t) :
  create_task http_post self task w = (Return response, w1) ->
  CreateTaskResponse.taskId response = None
  \/ CreateTaskResponse.taskId response = Some "" ->
  solve http_post format_float fuel self task poll_interval timeout w
  = (Raise (Api (Exceptions.mk_exception Exceptions.YesCaptchaError 1
                   (Some "ERROR_NO_TASK_ID") (Some "createTask 未返回任务 ID"))),
     w1).
Proof.
  intros Hcreate Hid. unfold solve, bind. rewrite Hcreate. cbn.
  destruct Hid as [-> | ->]; reflexivity.
Qed.

(** A timeout that is at most zero is not above the initial [elapsed]. *)
Lemma leb_zero_not_ltb (t : float) : leb t zero = true -> ltb zero t = false.
Proof.
  unfold leb, ltb, SFleb, SFltb, zero.
  destruct t as [s|s| |s m e]; cbn; try destruct s; cbn; congruence.
Qed.

Lemma append_inj_l (p a b : string) : p +:+ a = p +:+ b -> a = b.
Proof. induction p as [|c p IH]; cbn; [trivial|]. intros [= H]. now apply IH. Qed.

Lemma create_task_no_poll (self : YesCaptchaClient) (task : Task)
    (w w' : world server) (r : outcome CreateTaskResponse.t) :
  create_task http_post self task w = (r, w') ->
  polls self w' = polls self w /\ sleeps w' = sleeps w.
Proof.
  intros H. apply create_task_trace in H.
  unfold polls, sleeps. rewrite H, !List.filter_app, !length_app. cbn.
  destruct (String.eqb_spec (base_url self +:+ "/createTask")
                            (base_url self +:+ "/getTaskResult")) as [E|_].
  - apply append_inj_l in E. discriminate.
  - cbn. lia.
Qed.

End WorkflowLemmas.

(* ===================================================================== *)
(** ** Properties of [solve] *)
(* ===================================================================== *)

Section SolveProperties.
Import PyFloat Pydantic Models Client Scenarios.
Import Exceptions.

(** The run of the scenario with three [processing] answers and then a
    [ready] one. *)
Lemma polling_scenario_run (fuel : nat) :
  exists w' : world nat,
    solve polling_server repr (4 + fuel) client turnstile_task f0_1 (Some f5_0)
      (mk_world 0%nat [])
    = (Return (Solution.mk None (Some "solved-token-xyz") None None None None None []),
       w')
    /\ polls client w' = 4%nat
    /\ sleeps w' = 3%nat
    /\ last (trace w') = Some (poll_event client "poll-task-123").
Proof.
  eexists. split.
  - apply solve_fuel_mono; [vm_compute; reflexivity | discriminate].
  - vm_compute. repeat split; reflexivity.
Qed.

(** C3, as the code has it. When a poll inside the loop of [solve] returns
    status [ready] with a solution, [solve] returns that solution at once: the
    poll is the last effect, no suspension and no further poll follows. In the
    scenario where the polls answer [processing] three times and then [ready]
    with token [solved-token-xyz], poll interval 0.1 and timeout 5, [solve]
    returns the solution with that token after exactly 4 polls (the three
    [processing] ones and the [ready] one) and 3 suspensions, the last effect
    being the fourth poll. *)
Theorem solve_returns_at_once_when_ready :
  (forall (server : Type) (http_post : string -> value -> server -> reply * server)
          (format_float : float -> string)
          (fuel : nat) (self : YesCaptchaClient) (task_id : string)
          (poll_interval timeout elapsed : float) (w w1 : world server)
          (result : TaskResultResponse.t) (solution : Solution.t),
     ltb elapsed timeout = true ->
     get_task_result http_post self task_id w = (Return result, w1) ->
     TaskResultResponse.status result = Some "ready" ->
     TaskResultResponse.solution result = Some solution ->
     solve_polling http_post format_float (S fuel) self task_id
       poll_interval timeout elapsed w = (Return solution, w1)
     /\ trace w1 = (trace w ++ [poll_event self task_id])%list)
  /\ (forall fuel : nat, exists (solution : Solution.t) (w' : world nat),
        solve polling_server repr (4 + fuel) client turnstile_task f0_1 (Some f5_0)
          (mk_world 0%nat []) = (Return solution, w')
        /\ Solution.token solution = Some "solved-token-xyz"
        /\ polls client w' = 4%nat
        /\ sleeps w' = 3%nat
        /\ last (trace w') = Some (poll_event client "poll-task-123")).
Proof.
  split.
  - intros server http_post format_float fuel self task_id poll_interval timeout
      elapsed w w1 result solution Hlt Hget Hstatus Hsol.
    split; [|exact (get_task_result_trace _ _ _ _ _ _ Hget)].
    unfold solve_polling, bind. rewrite poll_loop_unfold, Hlt, Hget.
    unfold ready_solution. rewrite Hstatus, Hsol. reflexivity.
  - intros fuel. destruct (polling_scenario_run fuel) as (w' & Hrun & Hrest).
    eexists _, w'. split; [exact Hrun|]. split; [reflexivity | exact Hrest].
Qed.

Lemma solve_returns_at_once_when_ready_witness :
  solve_polling polling_server repr 1 client "poll-task-123" f0_1 f5_0 zero
    (mk_world 3%nat [])
  = (Return (Solution.mk None (Some "solved-token-xyz") None None None None None []),
     mk_world 4%nat [poll_event client "poll-task-123"]).
Proof.
  apply (proj1 solve_returns_at_once_when_ready nat polling_server repr 0%nat client
           "poll-task-123" f0_1 f5_0 zero (mk_world 3%nat [])
           (mk_world 4%nat [poll_event client "poll-task-123"])
           (TaskResultResponse.mk 0 None None (Some "ready")
              (Some (Solution.mk None (Some "solved-token-xyz") None None None None None [])))).
  - reflexivity.
  - vm_compute. reflexivity.
  - reflexivity.
  - reflexivity.
Defined.

(** In the scenario of C3, [solve] does not return after exactly 3 polls: with
    whatever fuel it returns, it has polled 4 times. *)
Lemma polling_scenario_not_three_polls :
  ~ (exists (fuel : nat) (solution : Solution.t) (w' : world nat),
       solve polling_server repr fuel client turnstile_task f0_1 (Some f5_0)
         (mk_world 0%nat []) = (Return solution, w')
       /\ Solution.token solution = Some "solved-token-xyz"
       /\ polls client w' = 3%nat).
Proof.
  intros (fuel & solution & w' & Hrun & _ & Hpolls).
  destruct (le_lt_dec 4 fuel) as [Hge|Hlt].
  - replace fuel with (4 + (fuel - 4))%nat in Hrun by lia.
    destruct (polling_scenario_run (fuel - 4)) as (w2 & Hrun2 & Hp & _).
    rewrite Hrun2 in Hrun. injection Hrun as _ <-. congruence.
  - destruct fuel as [|[|[|[|fuel]]]]; try lia; vm_compute in Hrun; discriminate.
Qed.






Lemma no_id_scenario_run (fuel : nat) :
  solve no_id_server repr fuel client turnstile_task f3_0 None (mk_world tt [])
  = (Raise (Api (mk_exception YesCaptchaError 1 (Some "ERROR_NO_TASK_ID")
                   (Some "createTask 未返回任务 ID"))),
     mk_world tt
       [ Post "https://api.yescaptcha.com/createTask"
           (VDict [ ("clientKey", VStr "test-key-12345");
                    ("task", VDict (model_dump_exclude_none turnstile_task));
                    ("softId", VStr SOFT_ID) ]) ]).
Proof.
  apply (solve_without_task_id no_id_server repr fuel client turnstile_task f3_0 None
           (mk_world tt []) _ (CreateTaskResponse.mk 0 None None None)).
  - vm_compute. reflexivity.
  - left. reflexivity.
Qed.

(** What a validated [createTask] reply holds under [errorId] and [taskId]. *)
Lemma create_reply_fields (d : list (string * value))
    (response : CreateTaskResponse.t) :
  CreateTaskResponse.model_validate (VDict d) = Some response ->
  dict_get d "errorId" = Some (VInt (CreateTaskResponse.errorId response))
  /\ CreateTaskResponse.taskId response
     = match dict_get d "taskId" with
       | Some (VStr task_id) => Some task_id
       | _ => None
       end.
Proof.
  unfold CreateTaskResponse.model_validate, required, optional.
  cbn [as_object mbind option_bind]. intros H.
  destruct (dict_get d "errorId") as [[]|]; try discriminate. cbn in H.
  destruct (match dict_get d "errorCode" with
            | Some VNone | None => Some None
            | Some v => Some <$> as_str v
            end); [|discriminate]. cbn in H.
  destruct (match dict_get d "errorDescription" with
            | Some VNone | None => Some None
            | Some v => Some <$> as_str v
            end); [|discriminate]. cbn in H.
  destruct (dict_get d "taskId") as [[]|]; cbn in H; try discriminate;
    injection H as <-; split; reflexivity.
Qed.

(** [create_task] on a reply that validates and reports success. *)
Lemma create_task_on_success {server : Type}
    (http_post : string -> value -> server -> reply * server)
    (self : YesCaptchaClient) (task : Task) (w : world server)
    (data : value) (s : server) (response : CreateTaskResponse.t) :
  http_post (base_url self +:+ "/createTask")
    (VDict [ ("clientKey", VStr (client_key self));
             ("task", VDict (model_dump_exclude_none task));
             ("softId", VStr "21471") ]) (srv w) = (Json data, s) ->
  CreateTaskResponse.model_validate data = Some response ->
  CreateTaskResponse.errorId response = 0 ->
  create_task http_post self task w
  = (Return response,
     mk_world s
       (trace w ++
          [ Post (base_url self +:+ "/createTask")
              (VDict [ ("clientKey", VStr (client_key self));
                       ("task", VDict (model_dump_exclude_none task));
                       ("softId", VStr "21471") ]) ])%list).
Proof.
  intros Hpost Hval Hid.
  unfold create_task, bind, _request, validated, check_error, ret, raise, SOFT_ID.
  rewrite Hpost. cbn. rewrite Hval. cbn.
  unfold Exceptions.raise_for_error. rewrite Hid. reflexivity.
Qed.

(** [solve] once the task is created with a task id: every event after the
    creation is a poll for that id or a suspension, and the first one is a
    poll when the loop is entered. *)
Lemma solve_polls_created_task {server : Type}
    (http_post : string -> value -> server -> reply * server)
    (format_float : float -> string)
    (fuel : nat) (self : YesCaptchaClient) (task : Task)
    (poll_interval : float) (timeout : option float)
    (w w1 w' : world server) (response : CreateTaskResponse.t)
    (task_id : string) (r : outcome Solution.t) :
  create_task http_post self task w = (Return response, w1) ->
  CreateTaskResponse.taskId response = Some task_id ->
  task_id <> "" ->
  solve http_post format_float fuel self task poll_interval timeout w = (r, w') ->
  exists evs,
    trace w' = (trace w1 ++ evs)%list
    /\ Forall (poll_or_sleep self task_id) evs
    /\ (ltb zero (default (Client.timeout self) timeout) = true ->
        (0 < fuel)%nat ->
        head evs = Some (poll_event self task_id)).
Proof.
  intros Hcreate Hid Hne Hrun.
  rewrite (solve_after_create _ _ _ _ _ _ _ _ _ _ _ Hcreate Hid Hne) in Hrun.
  unfold solve_polling, bind in Hrun.
  destruct (poll_loop http_post fuel self task_id poll_interval
              (default (Client.timeout self) timeout) zero w1) as [o w2] eqn:Hloop.
  assert (w' = w2) as ->.
  { destruct o as [[solution|]|e|]; now injection Hrun as _ <-. }
  destruct (poll_loop_events _ _ _ _ _ _ _ _ _ _ Hloop) as (evs & Htr & Hall).
  exists evs. repeat split; try assumption.
  intros Hlt Hfuel. destruct fuel as [|fuel]; [lia|].
  rewrite poll_loop_unfold, Hlt in Hloop.
  destruct (get_task_result http_post self task_id w1) as [o1 w3] eqn:Hget.
  apply get_task_result_trace in Hget.
  assert (Hpre : exists evs', trace w2 = (trace w3 ++ evs')%list).
  { destruct o1 as [result|e|].
    - destruct (ready_solution result).
      + injection Hloop as _ <-. exists []. now rewrite app_nil_r.
      + apply poll_loop_events in Hloop as (evs' & Htr' & _).
        cbn in Htr'. rewrite <- app_assoc in Htr'. eauto.
    - injection Hloop as _ <-. exists []. now rewrite app_nil_r.
    - injection Hloop as _ <-. exists []. now rewrite app_nil_r. }
  destruct Hpre as (evs' & Htr').
  rewrite Hget, <- app_assoc, Htr in Htr'.
  apply app_inv_head in Htr'. now subst evs.
Qed.

(** The polls of the scenario with three [processing] answers: all four
    carry the task id of the [createTask] reply. *)
Lemma polling_scenario_polls (fuel : nat) :
  exists (solution : Solution.t) (w' : world nat),
    solve polling_server repr (4 + fuel) client turnstile_task f0_1 (Some f5_0)
      (mk_world 0%nat []) = (Return solution, w')
    /\ List.filter (is_poll client) (trace w')
       = repeat (poll_event client "poll-task-123") 4.
Proof.
  eexists _, _. split.
  - apply solve_fuel_mono; [vm_compute; reflexivity | discriminate].
  - vm_compute. reflexivity.
Qed.

(** C5. When the [createTask] reply validates and reports success
    ([errorId] 0) but holds no task id (no [taskId] item, [None], or the
    empty string, which Python also counts as false), [solve] raises
    [YesCaptchaError] with code [ERROR_NO_TASK_ID] and does nothing after the
    creation request. When the reply holds a task id, every request [solve]
    sends after the creation is a poll for exactly the id of the reply, and
    with a timeout above zero (and fuel for one run of the loop) the first
    thing it does is such a poll. In the scenario without task id [solve]
    raises after the creation request alone; in the scenario whose reply
    holds [poll-task-123] all four polls carry that id. *)
Theorem solve_needs_and_uses_task_id :
  (forall (server : Type) (http_post : string -> value -> server -> reply * server)
          (format_float : float -> string)
          (fuel : nat) (self : YesCaptchaClient) (task : Task)
          (poll_interval : float) (timeout : option float)
          (w : world server) (d : list (string * value)) (s : server)
          (response : CreateTaskResponse.t),
     http_post (base_url self +:+ "/createTask")
       (VDict [ ("clientKey", VStr (client_key self));
                ("task", VDict (model_dump_exclude_none task));
                ("softId", VStr "21471") ]) (srv w) = (Json (VDict d), s) ->
     CreateTaskResponse.model_validate (VDict d) = Some response ->
     dict_get d "errorId" = Some (VInt 0) ->
     dict_get d "taskId" = None
     \/ dict_get d "taskId" = Some VNone
     \/ dict_get d "taskId" = Some (VStr "") ->
     solve http_post format_float fuel self task poll_interval timeout w
     = (Raise (Api (mk_exception YesCaptchaError 1 (Some "ERROR_NO_TASK_ID")
                      (Some "createTask 未返回任务 ID"))),
        mk_world s
          (trace w ++
             [ Post (base_url self +:+ "/createTask")
                 (VDict [ ("clientKey", VStr (client_key self));
                          ("task", VDict (model_dump_exclude_none task));
                          ("softId", VStr "21471") ]) ])%list))
  /\ (forall (server : Type) (http_post : string -> value -> server -> reply * server)
             (format_float : float -> string)
             (fuel : nat) (self : YesCaptchaClient) (task : Task)
             (poll_interval : float) (timeout : option float)
             (w w' : world server) (d : list (string * value)) (s : server)
             (response : CreateTaskResponse.t)
             (task_id : string) (r : outcome Solution.t),
        http_post (base_url self +:+ "/createTask")
          (VDict [ ("clientKey", VStr (client_key self));
                   ("task", VDict (model_dump_exclude_none task));
                   ("softId", VStr "21471") ]) (srv w) = (Json (VDict d), s) ->
        CreateTaskResponse.model_validate (VDict d) = Some response ->
        dict_get d "errorId" = Some (VInt 0) ->
        dict_get d "taskId" = Some (VStr task_id) ->
        task_id <> "" ->
        solve http_post format_float fuel self task poll_interval timeout w = (r, w') ->
        exists evs,
          trace w' =
            (trace w ++
               [ Post (base_url self +:+ "/createTask")
                   (VDict [ ("clientKey", VStr (client_key self));
                            ("task", VDict (model_dump_exclude_none task));
                            ("softId", VStr "21471") ]) ] ++ evs)%list
          /\ Forall (poll_or_sleep self task_id) evs
          /\ (ltb zero (default (Client.timeout self) timeout) = true ->
              (0 < fuel)%nat ->
              head evs = Some (poll_event self task_id)))
  /\ (forall fuel : nat,
        solve no_id_server repr fuel client turnstile_task f3_0 None (mk_world tt [])
        = (Raise (Api (mk_exception YesCaptchaError 1 (Some "ERROR_NO_TASK_ID")
                         (Some "createTask 未返回任务 ID"))),
           mk_world tt
             [ Post "https://api.yescaptcha.com/createTask"
                 (VDict [ ("clientKey", VStr "test-key-12345");
                          ("task", VDict (model_dump_exclude_none turnstile_task));
                          ("softId", VStr SOFT_ID) ]) ]))
  /\ (forall fuel : nat, exists (solution : Solution.t) (w' : world nat),
        solve polling_server repr (4 + fuel) client turnstile_task f0_1 (Some f5_0)
          (mk_world 0%nat []) = (Return solution, w')
        /\ List.filter (is_poll client) (trace w')
           = repeat (poll_event client "poll-task-123") 4).
Proof.
  split; [|split; [|split]].
  - intros server http_post format_float fuel self task poll_interval timeout
      w d s response Hpost Hval Herr Hid.
    destruct (create_reply_fields d response Hval) as [Herr' Htask].
    assert (Hzero : CreateTaskResponse.errorId response = 0) by congruence.
    apply (solve_without_task_id http_post format_float fuel self task poll_interval
             timeout w _ response).
    + exact (create_task_on_success http_post self task w _ s response
               Hpost Hval Hzero).
    + rewrite Htask. destruct Hid as [-> | [-> | ->]]; auto.
  - intros server http_post format_float fuel self task poll_interval timeout
      w w' d s response task_id r Hpost Hval Herr Hid Hne Hrun.
    destruct (create_reply_fields d response Hval) as [Herr' Htask].
    assert (Hzero : CreateTaskResponse.errorId response = 0) by congruence.
    rewrite Hid in Htask.
    destruct (solve_polls_created_task http_post format_float fuel self task
                poll_interval timeout w _ w' response task_id r
                (create_task_on_success http_post self task w _ s response
                   Hpost Hval Hzero) Htask Hne Hrun)
      as (evs & Htr & Hall & Hhead).
    exists evs. cbn [trace] in Htr. rewrite <- app_assoc in Htr.
    repeat split; assumption.
  - exact no_id_scenario_run.
  - exact polling_scenario_polls.
Qed.

Lemma solve_needs_and_uses_task_id_witness :
  exists evs,
    trace (snd (solve polling_server repr 4 client turnstile_task f0_1 (Some f5_0)
                  (mk_world 0%nat [])))
    = (trace (mk_world 0%nat []) ++
         [ Post (base_url client +:+ "/createTask")
             (VDict [ ("clientKey", VStr (client_key client));
                      ("task", VDict (model_dump_exclude_none turnstile_task));
                      ("softId", VStr "21471") ]) ] ++ evs)%list
    /\ Forall (poll_or_sleep client "poll-task-123") evs
    /\ (ltb zero (default (Client.timeout client) (Some f5_0)) = true ->
        (0 < 4)%nat ->
        head evs = Some (poll_event client "poll-task-123")).
Proof.
  apply (proj1 (proj2 solve_needs_and_uses_task_id) nat polling_server repr 4%nat
           client turnstile_task f0_1 (Some f5_0) (mk_world 0%nat [])
           (snd (solve polling_server repr 4 client turnstile_task f0_1 (Some f5_0)
                   (mk_world 0%nat [])))
           [ ("errorId", VInt 0); ("taskId", VStr "poll-task-123") ] 0%nat
           (CreateTaskResponse.mk 0 None None (Some "poll-task-123"))
           "poll-task-123"
           (fst (solve polling_server repr 4 client turnstile_task f0_1 (Some f5_0)
                   (mk_world 0%nat [])))).
  - reflexivity.
  - reflexivity.
  - reflexivity.
  - reflexivity.
  - discriminate.
  - apply surjective_pairing.
Defined.

(** C10. When the timeout in effect (the argument, or the client's own
    timeout when the argument is [None]) is at most zero and the task was
    created with a task id, [solve] raises [TaskTimeoutError] straight after
    the creation request: the loop body never runs, so there is no poll and no
    suspension, whatever the fuel. *)
Theorem solve_nonpositive_timeout_never_polls
    (server : Type) (http_post : string -> value -> server -> reply * server)
    (format_float : float -> string)
    (fuel : nat) (self : YesCaptchaClient) (task : Task)
    (poll_interval : float) (timeout : option float)
    (w w1 : world server) (response : CreateTaskResponse.t) (task_id : string) :
  create_task http_post self task w = (Return response, w1) ->
  CreateTaskResponse.taskId response = Some task_id ->
  task_id <> "" ->
  leb (default (Client.timeout self) timeout) zero = true ->
  solve http_post format_float fuel self task poll_interval timeout w
  = (Raise (Api (mk_exception TaskTimeoutError 1 (Some "ERROR_TASK_TIMEOUT")
                   (Some (timeout_description format_float task_id
                            (default (Client.timeout self) timeout))))),
     w1)
  /\ polls self w1 = polls self w
  /\ sleeps w1 = sleeps w.
Proof.
  intros Hcreate Hid Hne Hle.
  split; [|exact (create_task_no_poll _ _ _ _ _ _ Hcreate)].
  rewrite (solve_after_create _ _ _ _ _ _ _ _ _ _ _ Hcreate Hid Hne).
  unfold solve_polling, bind.
  rewrite poll_loop_exit by now apply leb_zero_not_ltb.
  reflexivity.
Qed.

Lemma solve_nonpositive_timeout_never_polls_witness :
  solve processing_server repr 0 client turnstile_task f3_0 (Some zero) (mk_world tt [])
  = (Raise (Api (mk_exception TaskTimeoutError 1 (Some "ERROR_TASK_TIMEOUT")
                   (Some (timeout_description repr "timeout-task"
                            (default (Client.timeout client) (Some zero)))))),
     mk_world tt
       [ Post "https://api.yescaptcha.com/createTask"
           (VDict [ ("clientKey", VStr "test-key-12345");
                    ("task", VDict (model_dump_exclude_none turnstile_task));
                    ("softId", VStr SOFT_ID) ]) ])
  /\ polls client
       (mk_world tt
          [ Post "https://api.yescaptcha.com/createTask"
              (VDict [ ("clientKey", VStr "test-key-12345");
                       ("task", VDict (model_dump_exclude_none turnstile_task));
                       ("softId", VStr SOFT_ID) ]) ])
     = polls client (mk_world tt [])
  /\ sleeps
       (mk_world tt
          [ Post "https://api.yescaptcha.com/createTask"
              (VDict [ ("clientKey", VStr "test-key-12345");
                       ("task", VDict (model_dump_exclude_none turnstile_task));
                       ("softId", VStr SOFT_ID) ]) ])
     = sleeps (mk_world (server := unit) tt []).
Proof.
  apply (solve_nonpositive_timeout_never_polls unit processing_server repr 0%nat client
           turnstile_task f3_0 (Some zero) (mk_world tt []) _
           (CreateTaskResponse.mk 0 None None (Some "timeout-task")) "timeout-task").
  - vm_compute. reflexivity.
  - reflexivity.
  - discriminate.
  - reflexivity.
Defined.

End SolveProperties.

(* ===================================================================== *)
(** ** Further properties of the error mapping and of the constructor *)
(* ===================================================================== *)

Section ErrorMappingMore.
Import Exceptions Table PyFloat Client.

(** X1. [raise_for_error] raises exactly when the error id is not 0, and the
    exception it raises has the id, the code and the description it was
    given as attributes, a code of [None] staying [None]. *)
Theorem raise_for_error_raises_iff_nonzero
    (error_id : Z) (error_code error_description : option string) :
  (raise_for_error error_id error_code error_description = inl tt <-> error_id = 0)
  /\ (forall e : exception,
        raise_for_error error_id error_code error_description = inr e ->
        error_id <> 0
        /\ Exceptions.error_id e = error_id
        /\ Exceptions.error_code e = error_code
        /\ Exceptions.error_description e = error_description).
Proof.
  unfold raise_for_error. destruct (Z.eqb_spec error_id 0) as [Heq|Hne].
  - split; [tauto | discriminate].
  - split.
    + split; [discriminate | contradiction].
    + intros e [= <-]. cbn. tauto.
Qed.

Lemma raise_for_error_raises_iff_nonzero_witness :
  1 <> 0
  /\ Exceptions.error_id (mk_exception InvalidKeyError 1 (Some "ERROR_KEY_DOES_NOT_EXIST") None) = 1
  /\ Exceptions.error_code (mk_exception InvalidKeyError 1 (Some "ERROR_KEY_DOES_NOT_EXIST") None)
     = Some "ERROR_KEY_DOES_NOT_EXIST"
  /\ Exceptions.error_description
       (mk_exception InvalidKeyError 1 (Some "ERROR_KEY_DOES_NOT_EXIST") None) = None.
Proof.
  apply (proj2 (raise_for_error_raises_iff_nonzero 1 (Some "ERROR_KEY_DOES_NOT_EXIST") None)).
  vm_compute. reflexivity.
Defined.

(** X2. An error without a usable code, [None] or the empty string, is raised
    as the base class [YesCaptchaError]; a subclass is raised only for one of
    the thirteen codes of [ERROR_CODE_MAP]. *)
Theorem raise_for_error_subclass_only_for_known_codes
    (error_id : Z) (error_code error_description : option string) (e : exception) :
  raise_for_error error_id error_code error_description = inr e ->
  (error_code = None \/ error_code = Some "" -> cls e = YesCaptchaError)
  /\ (cls e <> YesCaptchaError ->
      exists code, error_code = Some code
        /\ In code [ "ERROR_TASK_TIMEOUT"; "ERROR_ZERO_BALANCE";
                     "ERROR_KEY_DOES_NOT_EXIST"; "ERROR_CAPTCHA_UNSOLVABLE";
                     "ERROR_IP_BLOCKED_5MIN"; "ERROR_IP_BANNED";
                     "ERROR_NO_SLOT_AVAILABLE"; "ERROR_NO_SLOT_AVAILABLE_BLOCK";
                     "ERROR_TASK_NOT_SUPPORTED"; "ERROR_TASKID_INVALID";
                     "ERROR_NO_SUCH_CAPCHA_ID"; "ERROR_BAD_REQUEST";
                     "ERROR_SERVICE_UNAVALIABLE" ]).
Proof.
  unfold raise_for_error. destruct (error_id =? 0)%Z; [discriminate|].
  intros [= <-]. cbn [cls]. split.
  - intros [-> | ->]; reflexivity.
  - destruct error_code as [code|]; [|intros H; now contradiction H].
    rewrite or_empty_Some, ERROR_CODE_MAP_table. intros Hcls.
    exists code. split; [reflexivity|].
    unfold kind_of_code in Hcls. cbn [In].
    repeat match type of Hcls with
    | context [String.eqb code ?k] =>
        destruct (String.eqb_spec code k) as [->|]; [tauto|]
    end.
    contradiction.
Qed.

Lemma raise_for_error_subclass_only_for_known_codes_witness :
  cls (mk_exception YesCaptchaError 1 None (Some "unknown")) = YesCaptchaError.
Proof.
  apply (proj1 (raise_for_error_subclass_only_for_known_codes 1 None (Some "unknown")
                  (mk_exception YesCaptchaError 1 None (Some "unknown")) eq_refl)).
  left. reflexivity.
Defined.

(** X3. The message of an exception raised for a non-empty code is the
    code in brackets followed by the description, a missing description
    showing as the text [None]; raised without a code, the message is the
    description itself. *)
Theorem raised_error_message
    (error_id : Z) (error_code error_description : option string) (e : exception) :
  raise_for_error error_id error_code error_description = inr e ->
  (forall code, error_code = Some code -> code <> "" ->
     message e = Some ("[" +:+ code +:+ "] "
                       +:+ match error_description with
                           | Some description => description
                           | None => "None"
                           end))
  /\ (error_code = None \/ error_code = Some "" -> message e = error_description).
Proof.
  unfold raise_for_error. destruct (error_id =? 0)%Z; [discriminate|].
  intros [= <-]. unfold message. cbn [Exceptions.error_code Exceptions.error_description].
  split.
  - intros code -> Hne. destruct code; [contradiction|]. reflexivity.
  - intros [-> | ->]; reflexivity.
Qed.

Lemma raised_error_message_witness :
  message (mk_exception InvalidKeyError 1 (Some "ERROR_KEY_DOES_NOT_EXIST") None)
  = Some ("[" +:+ "ERROR_KEY_DOES_NOT_EXIST" +:+ "] " +:+ "None").
Proof.
  apply (proj1 (raised_error_message 1 (Some "ERROR_KEY_DOES_NOT_EXIST") None
                  (mk_exception InvalidKeyError 1 (Some "ERROR_KEY_DOES_NOT_EXIST") None)
                  eq_refl) "ERROR_KEY_DOES_NOT_EXIST").
  - reflexivity.
  - discriminate.
Defined.

Lemma rstrip_slash_cons (c : ascii) (s : string) :
  rstrip_slash (String c s)
  = match rstrip_slash s with
    | EmptyString => if Ascii.eqb c "/" then EmptyString else String c EmptyString
    | r => String c r
    end.
Proof. reflexivity. Qed.

(** [rstrip] takes one trailing slash away like none. *)
Lemma rstrip_slash_app_slash (s : string) :
  rstrip_slash (s +:+ "/") = rstrip_slash s.
Proof.
  induction s as [|c s IH]; [reflexivity|].
  change (String c s +:+ "/") with (String c (s +:+ "/")).
  rewrite !rstrip_slash_cons, IH. reflexivity.
Qed.

Lemma rstrip_slash_decompose (s : string) :
  exists n, s = rstrip_slash s +:+ slashes n.
Proof.
  induction s as [|c s [n IH]]; [now exists 0%nat|].
  rewrite rstrip_slash_cons. destruct (rstrip_slash s) as [|c' r].
  - destruct (Ascii.eqb_spec c "/") as [->|_].
    + exists (S n). change (String "/" s = String "/" (slashes n)).
      f_equal. exact IH.
    + exists n. change (String c s = String c (slashes n)).
      f_equal. exact IH.
  - exists n. change (String c s = String c (String c' r +:+ slashes n)).
    f_equal. exact IH.
Qed.

Lemma rstrip_slash_no_trailing (s p : string) : rstrip_slash s <> p +:+ "/".
Proof.
  revert p. induction s as [|c s IH]; intros p.
  - destruct p; discriminate.
  - rewrite rstrip_slash_cons. destruct (rstrip_slash s) as [|c' r] eqn:E.
    + destruct (Ascii.eqb_spec c "/") as [->|Hc].
      * destruct p; discriminate.
      * destruct p as [|c1 p].
        -- change (String c "" <> String "/" ""). congruence.
        -- change (String c "" <> String c1 (p +:+ "/")).
           intros [= _ H]. destruct p; discriminate.
    + destruct p as [|c1 p].
      * change (String c (String c' r) <> String "/" ""). congruence.
      * change (String c (String c' r) <> String c1 (p +:+ "/")).
        intros [= _ H]. exact (IH p H).
Qed.

(** X4. The base URL a client is built with loses all its trailing slashes
    and nothing else: the argument is the stored [base_url] followed by
    slashes only, the stored [base_url] does not end in a slash, and an
    argument with one more trailing slash gives the same client, hence the
    same request URLs. *)
Theorem init_strips_trailing_slashes (client_key url : string) (timeout : float) :
  (exists n, url = base_url (__init__ client_key url timeout) +:+ slashes n)
  /\ (forall p, base_url (__init__ client_key url timeout) <> p +:+ "/")
  /\ __init__ client_key (url +:+ "/") timeout = __init__ client_key url timeout.
Proof.
  unfold __init__. cbn [base_url]. split; [|split].
  - apply rstrip_slash_decompose.
  - intros p. apply rstrip_slash_no_trailing.
  - now rewrite rstrip_slash_app_slash.
Qed.

Lemma init_strips_trailing_slashes_witness :
  base_url (__init__ "test-key-12345" "https://cn.yescaptcha.com//" f120_0)
  <> "https://cn.yescaptcha.com" +:+ "/".
Proof.
  apply (proj1 (proj2 (init_strips_trailing_slashes "test-key-12345"
                         "https://cn.yescaptcha.com//" f120_0))).
Defined.

End ErrorMappingMore.

(* ===================================================================== *)
(** ** Further properties of the task models *)
(* ===================================================================== *)

Section TaskModelsMore.
Import Pydantic Models.

#[local] Arguments as_literal : simpl never.
#[local] Arguments as_list : simpl never.
#[local] Arguments as_dict : simpl never.

Ltac unfold_validate :=
  unfold model_validate,
    ImageToTextTask.model_validate, NoCaptchaTaskProxyless.model_validate,
    RecaptchaV2EnterpriseTaskProxyless.model_validate,
    RecaptchaV3TaskProxyless.model_validate, RecaptchaV3EnterpriseTask.model_validate,
    HCaptchaTaskProxyless.model_validate, HCaptchaClassification.model_validate,
    ReCaptchaV2Classification.model_validate, FunCaptchaClassification.model_validate,
    TurnstileTaskProxyless.model_validate, CloudFlareTask.model_validate,
    with_default, required, optional in *.

(** The fields that are serialized are the declared ones. *)
Lemma fields_field_names (task : Task) :
  map fst (fields task) = field_names (class_of task).
Proof. destruct task as [x|x|x|x|x|x|x|x|x|x|x]; reflexivity. Qed.

Lemma validate_declared_only (c : task_class) (d d' : list (string * value)) :
  (forall f, In f (field_names c) -> dict_get d f = dict_get d' f) ->
  model_validate c (VDict d) = model_validate c (VDict d').
Proof.
  intros H. destruct c; unfold_validate; cbn [as_object mbind option_bind];
    repeat match goal with
    | |- context [dict_get d ?f] => rewrite (H f) by (cbn; tauto)
    end;
    reflexivity.
Qed.

(** X5. Validation of a task reads the declared fields only: two inputs
    that agree on them validate alike, so an item under any other key is
    ignored and never reaches the serialized task. *)
Theorem task_validation_ignores_undeclared_keys (c : task_class) :
  (forall d d' : list (string * value),
     (forall f, In f (field_names c) -> dict_get d f = dict_get d' f) ->
     model_validate c (VDict d) = model_validate c (VDict d'))
  /\ (forall (d : list (string * value)) (k : string) (v : value) (task : Task),
        ~ In k (field_names c) ->
        model_validate c (VDict ((k, v) :: d)) = Some task ->
        model_validate c (VDict d) = Some task
        /\ dict_get (model_dump_exclude_none task) k = None).
Proof.
  split; [apply validate_declared_only|].
  intros d k v task Hk Hval.
  assert (Hsame : model_validate c (VDict ((k, v) :: d)) = model_validate c (VDict d)).
  { apply validate_declared_only. intros f Hf. cbn.
    destruct (String.eqb_spec k f) as [->|]; [contradiction | reflexivity]. }
  split; [congruence|].
  apply validated_type_literal in Hval as [<- _].
  unfold model_dump_exclude_none.
  rewrite dict_get_exclude_none by apply fields_keys_NoDup.
  destruct (dict_get (fields task) k) as [v'|] eqn:E; [|reflexivity].
  exfalso. apply Hk. rewrite <- fields_field_names.
  apply dict_get_In in E. change k with (fst (k, v')). now apply in_map.
Qed.

Lemma task_validation_ignores_undeclared_keys_witness :
  model_validate C_TurnstileTaskProxyless
    (VDict [ ("websiteURL", VStr "https://example.com");
             ("websiteKey", VStr "0x4AAAAAAAB...") ])
  = Some (Task_TurnstileTaskProxyless
            (TurnstileTaskProxyless.mk "TurnstileTaskProxyless"
               "https://example.com" "0x4AAAAAAAB..."))
  /\ dict_get
       (model_dump_exclude_none
          (Task_TurnstileTaskProxyless
             (TurnstileTaskProxyless.mk "TurnstileTaskProxyless"
                "https://example.com" "0x4AAAAAAAB...")))
       "proxy" = None.
Proof.
  apply (proj2 (task_validation_ignores_undeclared_keys C_TurnstileTaskProxyless)
           _ "proxy" (VStr "http://user:pass@ip:port")).
  - cbn. intuition discriminate.
  - reflexivity.
Defined.

(** X6. A field with a declared default that the input leaves out is
    serialized with that default: the default [type] of the class, and
    [False] for the flags [isInvisible], [waitLoad] and [blockImage]. *)
Theorem task_defaults_are_serialized
    (c : task_class) (d : list (string * value)) (task : Task)
    (k : string) (v : value) :
  model_validate c (VDict d) = Some task ->
  In (k, v) (defaults c) ->
  dict_get d k = None ->
  dict_get (model_dump_exclude_none task) k = Some v.
Proof.
  intros Hval Hin Hnone.
  unfold model_dump_exclude_none.
  rewrite dict_get_exclude_none by apply fields_keys_NoDup.
  destruct c; cbn in Hin; intuition simplify_eq;
    unfold_validate; cbn [as_object mbind option_bind] in Hval;
    rewrite Hnone in Hval; simplify_option_eq; reflexivity.
Qed.

Lemma task_defaults_are_serialized_witness :
  dict_get
    (model_dump_exclude_none
       (Task_CloudFlareTask
          (CloudFlareTask.mk "CloudFlareTaskS3" "https://example.com"
             "http://user:pass@ip:port" None false None false None)))
    "waitLoad" = Some (VBool false).
Proof.
  apply (task_defaults_are_serialized C_CloudFlareTask
           [ ("websiteURL", VStr "https://example.com");
             ("proxy", VStr "http://user:pass@ip:port") ]).
  - reflexivity.
  - cbn. tauto.
  - reflexivity.
Defined.

(** X7. An explicit [None] is accepted only for a field declared
    [Optional]: when an input that gives [None] to a declared field
    validates, the field is one of the optional ones, and it is left out of
    the serialized task exactly as if the input had not mentioned it. *)
Theorem task_null_only_for_optional_fields
    (c : task_class) (d : list (string * value)) (task : Task) (k : string) :
  model_validate c (VDict d) = Some task ->
  In k (field_names c) ->
  dict_get d k = Some VNone ->
  In k (optional_fields c)
  /\ dict_get (model_dump_exclude_none task) k = None.
Proof.
  intros Hval Hin Hnull.
  unfold model_dump_exclude_none.
  rewrite dict_get_exclude_none by apply fields_keys_NoDup.
  destruct c; cbn in Hin; intuition subst;
    unfold_validate; cbn [as_object mbind option_bind] in Hval;
    rewrite Hnull in Hval; simplify_option_eq;
    first [reflexivity | cbn; auto 10].
Qed.

Lemma task_null_only_for_optional_fields_witness :
  In "project_name" (optional_fields C_ImageToTextTask)
  /\ dict_get
       (model_dump_exclude_none
          (Task_ImageToTextTask
             (ImageToTextTask.mk "ImageToTextTaskMuggle" "base64content==" None)))
       "project_name" = None.
Proof.
  apply (task_null_only_for_optional_fields C_ImageToTextTask
           [ ("body", VStr "base64content=="); ("project_name", VNone) ]).
  - reflexivity.
  - cbn. tauto.
  - reflexivity.
Defined.

End TaskModelsMore.

(* ===================================================================== *)
(** ** Properties of the three API methods *)
(* ===================================================================== *)

Section ApiMethods.
Import PyFloat Pydantic Models Client Scenarios.
Import Exceptions.

Ltac unfold_method :=
  unfold get_balance, create_task, get_task_result, bind, _request, validated,
    check_error, ret, raise in *.

Lemma get_balance_trace {server : Type}
    (http_post : string -> value -> server -> reply * server)
    (float_of_int : Z -> option float) (self : YesCaptchaClient)
    (w w' : world server) (r : outcome BalanceResponse.t) :
  get_balance http_post float_of_int self w = (r, w') ->
  trace w' = (trace w ++
    [ Post (base_url self +:+ "/getBalance")
        (VDict [ ("clientKey", VStr (client_key self)) ]) ])%list.
Proof.
  unfold_method.
  destruct (http_post _ _ (srv w)) as [[data|reason] s]; cbn.
  - destruct (BalanceResponse.model_validate float_of_int data) as [resp|]; cbn.
    + destruct (raise_for_error _ _ _); cbn; now intros [= _ <-].
    + now intros [= _ <-].
  - now intros [= _ <-].
Qed.

(** X8. Each API method sends exactly one request, whatever the outcome: a
    POST to its own endpoint under the base URL, with the client key and,
    for [create_task], the serialized task and the soft id, for
    [get_task_result], the task id. There is no retry. *)
Theorem api_methods_send_one_request :
  forall (server : Type) (http_post : string -> value -> server -> reply * server)
         (float_of_int : Z -> option float) (self : YesCaptchaClient)
         (w : world server),
    trace (snd (get_balance http_post float_of_int self w))
    = (trace w ++
        [ Post (base_url self +:+ "/getBalance")
            (VDict [ ("clientKey", VStr (client_key self)) ]) ])%list
    /\ (forall task : Task,
          trace (snd (create_task http_post self task w))
          = (trace w ++
              [ Post (base_url self +:+ "/createTask")
                  (VDict [ ("clientKey", VStr (client_key self));
                           ("task", VDict (model_dump_exclude_none task));
                           ("softId", VStr "21471") ]) ])%list)
    /\ (forall task_id : string,
          trace (snd (get_task_result http_post self task_id w))
          = (trace w ++
              [ Post (base_url self +:+ "/getTaskResult")
                  (VDict [ ("clientKey", VStr (client_key self));
                           ("taskId", VStr task_id) ]) ])%list).
Proof.
  intros server http_post float_of_int self w. split; [|split].
  - destruct (get_balance http_post float_of_int self w) as [r w'] eqn:E.
    exact (get_balance_trace _ _ _ _ _ _ E).
  - intros task.
    destruct (create_task http_post self task w) as [r w'] eqn:E.
    exact (create_task_trace _ _ _ _ _ _ E).
  - intros task_id.
    destruct (get_task_result http_post self task_id w) as [r w'] eqn:E.
    exact (get_task_result_trace _ _ _ _ _ _ E).
Qed.

(** X9. A failure of the transport is raised unchanged by each API method:
    it is not turned into a [YesCaptchaError], and nothing is validated. *)
Theorem api_methods_propagate_transport_failure :
  forall (server : Type) (http_post : string -> value -> server -> reply * server)
         (float_of_int : Z -> option float) (self : YesCaptchaClient)
         (w : world server) (reason : string),
    (forall s, http_post (base_url self +:+ "/getBalance")
                 (VDict [ ("clientKey", VStr (client_key self)) ]) (srv w)
               = (Failure reason, s) ->
       fst (get_balance http_post float_of_int self w)
       = Raise (TransportError reason))
    /\ (forall task s,
          http_post (base_url self +:+ "/createTask")
            (VDict [ ("clientKey", VStr (client_key self));
                     ("task", VDict (model_dump_exclude_none task));
                     ("softId", VStr "21471") ]) (srv w)
          = (Failure reason, s) ->
          fst (create_task http_post self task w) = Raise (TransportError reason))
    /\ (forall task_id s,
          http_post (base_url self +:+ "/getTaskResult")
            (VDict [ ("clientKey", VStr (client_key self));
                     ("taskId", VStr task_id) ]) (srv w)
          = (Failure reason, s) ->
          fst (get_task_result http_post self task_id w)
          = Raise (TransportError reason)).
Proof.
  intros server http_post float_of_int self w reason. split; [|split].
  - intros s H. unfold_method. unfold SOFT_ID. now rewrite H.
  - intros task s H. unfold_method. unfold SOFT_ID. now rewrite H.
  - intros task_id s H. unfold_method. now rewrite H.
Qed.

Lemma api_methods_propagate_transport_failure_witness :
  fst (create_task down_server client turnstile_task (mk_world tt []))
  = Raise (TransportError "503 Service Unavailable").
Proof.
  apply (proj1 (proj2 (api_methods_propagate_transport_failure unit down_server
                         float_of_int client (mk_world tt [])
                         "503 Service Unavailable"))
           turnstile_task tt).
  reflexivity.
Defined.

(** X10. An envelope that an API method returns reports success: its
    [errorId] is 0. A caller never receives a response that signals an API
    error. *)
Theorem api_methods_return_success_only :
  forall (server : Type) (http_post : string -> value -> server -> reply * server)
         (float_of_int : Z -> option float) (self : YesCaptchaClient)
         (w w' : world server),
    (forall response,
       get_balance http_post float_of_int self w = (Return response, w') ->
       BalanceResponse.errorId response = 0)
    /\ (forall task response,
          create_task http_post self task w = (Return response, w') ->
          CreateTaskResponse.errorId response = 0)
    /\ (forall task_id response,
          get_task_result http_post self task_id w = (Return response, w') ->
          TaskResultResponse.errorId response = 0).
Proof.
  intros server http_post float_of_int self w w'. split; [|split].
  - intros response. unfold_method.
    destruct (http_post _ _ (srv w)) as [[data|reason] s]; cbn; [|discriminate].
    destruct (BalanceResponse.model_validate float_of_int data) as [resp|]; cbn;
      [|discriminate].
    unfold raise_for_error.
    destruct (Z.eqb_spec (BalanceResponse.errorId resp) 0); cbn; [|discriminate].
    now intros [= <- _].
  - intros task response. apply create_task_success.
  - intros task_id response. unfold_method.
    destruct (http_post _ _ (srv w)) as [[data|reason] s]; cbn; [|discriminate].
    destruct (TaskResultResponse.model_validate data) as [resp|]; cbn; [|discriminate].
    unfold raise_for_error.
    destruct (Z.eqb_spec (TaskResultResponse.errorId resp) 0); cbn; [|discriminate].
    now intros [= <- _].
Qed.

Lemma api_methods_return_success_only_witness :
  BalanceResponse.errorId
    (BalanceResponse.mk 0 None None
       (Some (S754_finite false 5497558138880000 (-39))) None None (Some "12345"))
  = 0.
Proof.
  apply (proj1 (api_methods_return_success_only unit (constant_server balance_reply)
                  float_of_int client (mk_world tt [])
                  (mk_world tt
                     [ Post "https://api.yescaptcha.com/getBalance"
                         (VDict [ ("clientKey", VStr "test-key-12345") ]) ]))).
  vm_compute. reflexivity.
Defined.

(** X11. When the reply is an envelope with a non-zero [errorId], each API
    method raises the exception that [raise_for_error] builds from the
    envelope: the class [ERROR_CODE_MAP] gives for the code
    ([YesCaptchaError] by default), with the id, code and description of the
    envelope. *)
Theorem api_methods_raise_mapped_error :
  forall (server : Type) (http_post : string -> value -> server -> reply * server)
         (float_of_int : Z -> option float) (self : YesCaptchaClient)
         (w : world server) (data : value) (s : server),
    (forall response,
       http_post (base_url self +:+ "/getBalance")
         (VDict [ ("clientKey", VStr (client_key self)) ]) (srv w) = (Json data, s) ->
       BalanceResponse.model_validate float_of_int data = Some response ->
       BalanceResponse.errorId response <> 0 ->
       fst (get_balance http_post float_of_int self w)
       = Raise (Api (mk_exception
                       (default YesCaptchaError
                          (ERROR_CODE_MAP !! or_empty (BalanceResponse.errorCode response)))
                       (BalanceResponse.errorId response)
                       (BalanceResponse.errorCode response)
                       (BalanceResponse.errorDescription response))))
    /\ (forall task response,
          http_post (base_url self +:+ "/createTask")
            (VDict [ ("clientKey", VStr (client_key self));
                     ("task", VDict (model_dump_exclude_none task));
                     ("softId", VStr "21471") ]) (srv w) = (Json data, s) ->
          CreateTaskResponse.model_validate data = Some response ->
          CreateTaskResponse.errorId response <> 0 ->
          fst (create_task http_post self task w)
          = Raise (Api (mk_exception
                          (default YesCaptchaError
                             (ERROR_CODE_MAP
                                !! or_empty (CreateTaskResponse.errorCode response)))
                          (CreateTaskResponse.errorId response)
                          (CreateTaskResponse.errorCode response)
                          (CreateTaskResponse.errorDescription response))))
    /\ (forall task_id response,
          http_post (base_url self +:+ "/getTaskResult")
            (VDict [ ("clientKey", VStr (client_key self));
                     ("taskId", VStr task_id) ]) (srv w) = (Json data, s) ->
          TaskResultResponse.model_validate data = Some response ->
          TaskResultResponse.errorId response <> 0 ->
          fst (get_task_result http_post self task_id w)
          = Raise (Api (mk_exception
                          (default YesCaptchaError
                             (ERROR_CODE_MAP
                                !! or_empty (TaskResultResponse.errorCode response)))
                          (TaskResultResponse.errorId response)
                          (TaskResultResponse.errorCode response)
                          (TaskResultResponse.errorDescription response)))).
Proof.
  intros server http_post float_of_int self w data s. split; [|split].
  - intros response Hpost Hval Hid. unfold_method. unfold SOFT_ID.
    rewrite Hpost. cbn. rewrite Hval. cbn. unfold raise_for_error.
    destruct (Z.eqb_spec (BalanceResponse.errorId response) 0); [contradiction|].
    reflexivity.
  - intros task response Hpost Hval Hid. unfold_method. unfold SOFT_ID.
    rewrite Hpost. cbn. rewrite Hval. cbn. unfold raise_for_error.
    destruct (Z.eqb_spec (CreateTaskResponse.errorId response) 0); [contradiction|].
    reflexivity.
  - intros task_id response Hpost Hval Hid. unfold_method.
    rewrite Hpost. cbn. rewrite Hval. cbn. unfold raise_for_error.
    destruct (Z.eqb_spec (TaskResultResponse.errorId response) 0); [contradiction|].
    reflexivity.
Qed.

Lemma api_methods_raise_mapped_error_witness :
  fst (create_task (constant_server zero_balance_error) client turnstile_task
         (mk_world tt []))
  = Raise (Api (mk_exception
                  (default YesCaptchaError
                     (ERROR_CODE_MAP !! or_empty (Some "ERROR_ZERO_BALANCE")))
                  1 (Some "ERROR_ZERO_BALANCE")
                  (Some "Account balance is insufficient"))).
Proof.
  apply (proj1 (proj2 (api_methods_raise_mapped_error unit
                         (constant_server zero_balance_error) float_of_int client
                         (mk_world tt []) zero_balance_error tt))
           turnstile_task
           (CreateTaskResponse.mk 1 (Some "ERROR_ZERO_BALANCE")
              (Some "Account balance is insufficient") None)).
  - reflexivity.
  - reflexivity.
  - discriminate.
Defined.

Lemma no_errorId_invalid (data : value) :
  (forall d, data = VDict d -> dict_get d "errorId" = None) ->
  (forall float_of_int, BalanceResponse.model_validate float_of_int data = None)
  /\ CreateTaskResponse.model_validate data = None
  /\ TaskResultResponse.model_validate data = None.
Proof.
  intros H. destruct data as [| | | | |l|d]; try (repeat split; reflexivity).
  specialize (H d eq_refl).
  unfold BalanceResponse.model_validate, CreateTaskResponse.model_validate,
    TaskResultResponse.model_validate, required.
  cbn. rewrite H. repeat split; reflexivity.
Qed.

(** X12. A reply that is not an object, or an object without [errorId],
    makes each API method raise pydantic's [ValidationError], not a
    [YesCaptchaError]. *)
Theorem api_methods_reject_reply_without_errorId :
  forall (server : Type) (http_post : string -> value -> server -> reply * server)
         (float_of_int : Z -> option float) (self : YesCaptchaClient)
         (w : world server) (data : value) (s : server),
    (forall d, data = VDict d -> dict_get d "errorId" = None) ->
    (http_post (base_url self +:+ "/getBalance")
       (VDict [ ("clientKey", VStr (client_key self)) ]) (srv w) = (Json data, s) ->
     fst (get_balance http_post float_of_int self w) = Raise ValidationError)
    /\ (forall task,
          http_post (base_url self +:+ "/createTask")
            (VDict [ ("clientKey", VStr (client_key self));
                     ("task", VDict (model_dump_exclude_none task));
                     ("softId", VStr "21471") ]) (srv w) = (Json data, s) ->
          fst (create_task http_post self task w) = Raise ValidationError)
    /\ (forall task_id,
          http_post (base_url self +:+ "/getTaskResult")
            (VDict [ ("clientKey", VStr (client_key self));
                     ("taskId", VStr task_id) ]) (srv w) = (Json data, s) ->
          fst (get_task_result http_post self task_id w) = Raise ValidationError).
Proof.
  intros server http_post float_of_int self w data s Hdata.
  destruct (no_errorId_invalid data Hdata) as (Hb & Hc & Ht).
  split; [|split].
  - intros Hpost. unfold_method. unfold SOFT_ID. rewrite Hpost. cbn.
    now rewrite Hb.
  - intros task Hpost. unfold_method. unfold SOFT_ID. rewrite Hpost. cbn.
    now rewrite Hc.
  - intros task_id Hpost. unfold_method. rewrite Hpost. cbn. now rewrite Ht.
Qed.

Lemma api_methods_reject_reply_without_errorId_witness :
  fst (get_task_result (constant_server (VList [])) client "task-123" (mk_world tt []))
  = Raise ValidationError.
Proof.
  apply (proj2 (proj2 (api_methods_reject_reply_without_errorId unit
                         (constant_server (VList [])) float_of_int client
                         (mk_world tt []) (VList []) tt
                         ltac:(intros d H; discriminate H)))).
  reflexivity.
Defined.

(** X13. [get_task_result] accepts no status other than [processing] and
    [ready]: on a reply whose [status] is any other string it raises
    [ValidationError], whatever the rest of the reply says, an [errorId]
    other than 0 included. *)
Theorem get_task_result_rejects_unknown_status :
  forall (server : Type) (http_post : string -> value -> server -> reply * server)
         (self : YesCaptchaClient) (task_id : string) (w : world server)
         (d : list (string * value)) (s : server) (status : string),
    http_post (base_url self +:+ "/getTaskResult")
      (VDict [ ("clientKey", VStr (client_key self));
               ("taskId", VStr task_id) ]) (srv w) = (Json (VDict d), s) ->
    dict_get d "status" = Some (VStr status) ->
    status <> "processing" ->
    status <> "ready" ->
    fst (get_task_result http_post self task_id w) = Raise ValidationError.
Proof.
  intros server http_post self task_id w d s status Hpost Hstatus Hp Hr.
  assert (Hval : TaskResultResponse.model_validate (VDict d) = None).
  { unfold TaskResultResponse.model_validate. cbn [as_object mbind option_bind].
    destruct (required d "errorId" as_int); [|reflexivity]. cbn.
    destruct (optional d "errorCode" as_str); [|reflexivity]. cbn.
    destruct (optional d "errorDescription" as_str); [|reflexivity]. cbn.
    assert (Hbad : optional d "status" (as_literal TaskResultResponse.status_literals)
                   = None).
    { unfold optional. rewrite Hstatus.
      rewrite as_literal_not_In; [reflexivity|].
      cbn. intuition congruence. }
    now rewrite Hbad. }
  unfold_method. rewrite Hpost. cbn -[TaskResultResponse.model_validate].
  now rewrite Hval.
Qed.

Lemma get_task_result_rejects_unknown_status_witness :
  fst (get_task_result
         (constant_server (VDict [ ("errorId", VInt 0); ("status", VStr "failed") ]))
         client "task-123" (mk_world tt []))
  = Raise ValidationError.
Proof.
  apply (get_task_result_rejects_unknown_status unit
           (constant_server (VDict [ ("errorId", VInt 0); ("status", VStr "failed") ]))
           client "task-123" (mk_world tt [])
           [ ("errorId", VInt 0); ("status", VStr "failed") ] tt "failed").
  - reflexivity.
  - reflexivity.
  - discriminate.
  - discriminate.
Defined.

(** X14. [get_task_result] hands the solution of the reply on with its
    undeclared items: when the reply holds a [solution] object and the method
    returns, the returned result has a solution, it is the validated object,
    and every item of the object under a key that [Solution] does not
    declare can be read from its [model_extra]. *)
Theorem get_task_result_keeps_solution_extras :
  forall (server : Type) (http_post : string -> value -> server -> reply * server)
         (self : YesCaptchaClient) (task_id : string) (w w1 : world server)
         (d sd : list (string * value)) (s : server)
         (result : TaskResultResponse.t),
    http_post (base_url self +:+ "/getTaskResult")
      (VDict [ ("clientKey", VStr (client_key self));
               ("taskId", VStr task_id) ]) (srv w) = (Json (VDict d), s) ->
    dict_get d "solution" = Some (VDict sd) ->
    get_task_result http_post self task_id w = (Return result, w1) ->
    exists solution,
      TaskResultResponse.solution result = Some solution
      /\ Solution.model_validate (VDict sd) = Some solution
      /\ (forall k, ~ In k Solution.declared ->
            dict_get (Solution.model_extra solution) k = dict_get sd k).
Proof.
  intros server http_post self task_id w w1 d sd s result Hpost Hsol Hrun.
  unfold_method. rewrite Hpost in Hrun.
  cbn -[TaskResultResponse.model_validate] in Hrun.
  destruct (TaskResultResponse.model_validate (VDict d)) as [resp|] eqn:Hval;
    cbn in Hrun; [|discriminate].
  destruct (raise_for_error _ _ _); cbn in Hrun; [|discriminate].
  injection Hrun as -> _.
  unfold TaskResultResponse.model_validate in Hval.
  cbn [as_object mbind option_bind] in Hval.
  destruct (required d "errorId" as_int); [|discriminate]. cbn in Hval.
  destruct (optional d "errorCode" as_str); [|discriminate]. cbn in Hval.
  destruct (optional d "errorDescription" as_str); [|discriminate]. cbn in Hval.
  destruct (optional d "status" (as_literal TaskResultResponse.status_literals));
    [|discriminate].
  cbn in Hval. unfold optional in Hval. rewrite Hsol in Hval.
  destruct (Solution.model_validate (VDict sd)) as [solution|] eqn:Hs;
    [|discriminate].
  cbn in Hval. injection Hval as <-. cbn.
  exists solution. repeat split.
  intros k Hk. rewrite (model_extra_filter sd solution Hs).
  unfold Solution.is_extra.
  rewrite (dict_get_filter_key
             (fun k => negb (existsb (String.eqb k) Solution.declared))).
  destruct (existsb (String.eqb k) Solution.declared) eqn:E; [|reflexivity].
  apply existsb_eqb_In in E. contradiction.
Qed.

Lemma get_task_result_keeps_solution_extras_witness :
  exists solution,
    TaskResultResponse.solution
      (TaskResultResponse.mk 0 None None (Some "ready")
         (Some (Solution.mk None (Some "xyz") None None None None None
                  [ ("customField", VStr "customValue") ])))
    = Some solution
    /\ Solution.model_validate
         (VDict [ ("token", VStr "xyz"); ("customField", VStr "customValue") ])
       = Some solution
    /\ (forall k, ~ In k Solution.declared ->
          dict_get (Solution.model_extra solution) k
          = dict_get [ ("token", VStr "xyz"); ("customField", VStr "customValue") ] k).
Proof.
  apply (get_task_result_keeps_solution_extras unit
           (constant_server
              (VDict [ ("errorId", VInt 0); ("status", VStr "ready");
                       ("solution", custom_payload) ]))
           client "task-123" (mk_world tt [])
           (mk_world tt [poll_event client "task-123"])
           [ ("errorId", VInt 0); ("status", VStr "ready"); ("solution", custom_payload) ]
           [ ("token", VStr "xyz"); ("customField", VStr "customValue") ] tt).
  - reflexivity.
  - reflexivity.
  - vm_compute. reflexivity.
Defined.

End ApiMethods.

(* ===================================================================== *)
(** ** Further properties of [solve] *)
(* ===================================================================== *)

Section SolveMore.
Import PyFloat Pydantic Models Client Scenarios.
Import Exceptions.

Lemma get_task_result_not_out_of_fuel {server : Type}
    (http_post : string -> value -> server -> reply * server)
    (self : YesCaptchaClient) (task_id : string) (w : world server) :
  fst (get_task_result http_post self task_id w) <> OutOfFuel.
Proof.
  unfold get_task_result, bind, _request, validated, check_error, ret, raise.
  destruct (http_post _ _ (srv w)) as [[data|reason] s]; cbn; [|discriminate].
  destruct (TaskResultResponse.model_validate data) as [resp|]; cbn; [|discriminate].
  destruct (raise_for_error _ _ _); cbn; discriminate.
Qed.

(** X15. When [create_task] raises, whatever the exception (API error,
    validation error, transport failure), [solve] raises the same exception
    and stops there: it sends no poll and does not sleep. *)
Theorem solve_propagates_create_task_error
    (server : Type) (http_post : string -> value -> server -> reply * server)
    (format_float : float -> string)
    (fuel : nat) (self : YesCaptchaClient) (task : Task)
    (poll_interval : float) (timeout : option float)
    (w w1 : world server) (e : exn) :
  create_task http_post self task w = (Raise e, w1) ->
  solve http_post format_float fuel self task poll_interval timeout w = (Raise e, w1)
  /\ polls self w1 = polls self w
  /\ sleeps w1 = sleeps w.
Proof.
  intros Hcreate. split.
  - unfold solve, bind. now rewrite Hcreate.
  - exact (create_task_no_poll _ _ _ _ _ _ Hcreate).
Qed.

Lemma solve_propagates_create_task_error_witness :
  solve (constant_server zero_balance_error) repr 7 client turnstile_task f3_0 None
    (mk_world tt [])
  = (Raise (Api (mk_exception InsufficientBalanceError 1 (Some "ERROR_ZERO_BALANCE")
                   (Some "Account balance is insufficient"))),
     mk_world tt
       [ Post "https://api.yescaptcha.com/createTask"
           (VDict [ ("clientKey", VStr "test-key-12345");
                    ("task", VDict (model_dump_exclude_none turnstile_task));
                    ("softId", VStr SOFT_ID) ]) ])
  /\ polls client
       (mk_world tt
          [ Post "https://api.yescaptcha.com/createTask"
              (VDict [ ("clientKey", VStr "test-key-12345");
                       ("task", VDict (model_dump_exclude_none turnstile_task));
                       ("softId", VStr SOFT_ID) ]) ])
     = polls client (mk_world tt [])
  /\ sleeps
       (mk_world tt
          [ Post "https://api.yescaptcha.com/createTask"
              (VDict [ ("clientKey", VStr "test-key-12345");
                       ("task", VDict (model_dump_exclude_none turnstile_task));
                       ("softId", VStr SOFT_ID) ]) ])
     = sleeps (mk_world (server := unit) tt []).
Proof.
  apply (solve_propagates_create_task_error unit (constant_server zero_balance_error)
           repr 7%nat client turnstile_task f3_0 None (mk_world tt [])).
  vm_compute. reflexivity.
Defined.

(** X16. When a poll inside the loop of [solve] raises, [solve] raises the
    same exception at once: the poll is its last effect, it does not sleep
    and does not poll again. *)
Theorem solve_propagates_poll_error
    (server : Type) (http_post : string -> value -> server -> reply * server)
    (format_float : float -> string)
    (fuel : nat) (self : YesCaptchaClient) (task_id : string)
    (poll_interval timeout elapsed : float) (w w1 : world server) (e : exn) :
  ltb elapsed timeout = true ->
  get_task_result http_post self task_id w = (Raise e, w1) ->
  solve_polling http_post format_float (S fuel) self task_id
    poll_interval timeout elapsed w = (Raise e, w1)
  /\ trace w1 = (trace w ++ [poll_event self task_id])%list.
Proof.
  intros Hlt Hget.
  split; [|exact (get_task_result_trace _ _ _ _ _ _ Hget)].
  unfold solve_polling, bind. now rewrite poll_loop_unfold, Hlt, Hget.
Qed.

Lemma solve_propagates_poll_error_witness :
  solve_polling invalid_task_server repr 1 client "gone-task" f3_0 f120_0 zero
    (mk_world tt [])
  = (Raise (Api (mk_exception InvalidTaskIdError 1 (Some "ERROR_TASKID_INVALID")
                   (Some "Task does not exist"))),
     mk_world tt [poll_event client "gone-task"])
  /\ trace (mk_world tt [poll_event client "gone-task"])
     = (trace (mk_world (server := unit) tt []) ++ [poll_event client "gone-task"])%list.
Proof.
  apply (solve_propagates_poll_error unit invalid_task_server repr 0%nat client
           "gone-task" f3_0 f120_0 zero (mk_world tt [])).
  - reflexivity.
  - vm_compute. reflexivity.
Defined.

(** The run of the scenario in which every poll answers status [ready]
    without a solution. *)
Lemma ready_without_solution_scenario_run (fuel : nat) :
  exists w' : world unit,
    solve ready_without_solution_server repr (3 + fuel) client turnstile_task
      f0_1 (Some f0_3) (mk_world tt [])
    = (Raise (Api (mk_exception TaskTimeoutError 1 (Some "ERROR_TASK_TIMEOUT")
                     (Some "任务 empty-task 在 0.3 秒后超时"))),
       w')
    /\ polls client w' = 3%nat
    /\ sleeps w' = 3%nat.
Proof.
  eexists. split.
  - apply solve_fuel_mono; [vm_compute; reflexivity | discriminate].
  - vm_compute. split; reflexivity.
Qed.

(** X17. A poll result counts as ready only with status [ready] and a
    solution. On any other result, status [ready] without a solution
    included, [solve] sleeps for the poll interval (taken finite, so that the
    suspension completes), adds it to [elapsed] and goes round the loop
    again. When every poll answers status [ready] without a solution, with
    poll interval 0.1 and timeout 0.3, [solve] returns no solution: it raises
    [TaskTimeoutError] after exactly 3 polls and 3 suspensions. *)
Theorem solve_waits_unless_ready_with_solution :
  (forall (server : Type) (http_post : string -> value -> server -> reply * server)
          (format_float : float -> string)
          (fuel : nat) (self : YesCaptchaClient) (task_id : string)
          (poll_interval timeout elapsed : float) (w w1 : world server)
          (result : TaskResultResponse.t),
     is_finite poll_interval = true ->
     ltb elapsed timeout = true ->
     get_task_result http_post self task_id w = (Return result, w1) ->
     TaskResultResponse.solution result = None
     \/ TaskResultResponse.status result <> Some "ready" ->
     solve_polling http_post format_float (S fuel) self task_id
       poll_interval timeout elapsed w
     = solve_polling http_post format_float fuel self task_id
         poll_interval timeout (add elapsed poll_interval)
         (mk_world (srv w1) (trace w1 ++ [Sleep poll_interval])%list))
  /\ (forall fuel : nat, exists w' : world unit,
        solve ready_without_solution_server repr (3 + fuel) client turnstile_task
          f0_1 (Some f0_3) (mk_world tt [])
        = (Raise (Api (mk_exception TaskTimeoutError 1 (Some "ERROR_TASK_TIMEOUT")
                         (Some "任务 empty-task 在 0.3 秒后超时"))),
           w')
        /\ polls client w' = 3%nat
        /\ sleeps w' = 3%nat).
Proof.
  split; [|exact ready_without_solution_scenario_run].
  intros server http_post format_float fuel self task_id poll_interval timeout
    elapsed w w1 result _ Hlt Hget Hnot.
  assert (Hr : ready_solution result = None).
  { unfold ready_solution.
    destruct (TaskResultResponse.status result) as [st|]; [|reflexivity].
    destruct (String.eqb_spec st "ready") as [->|]; [|reflexivity].
    destruct Hnot as [H|H]; [exact H | contradiction]. }
  unfold solve_polling, bind. now rewrite poll_loop_unfold, Hlt, Hget, Hr.
Qed.

Lemma solve_waits_unless_ready_with_solution_witness :
  solve_polling ready_without_solution_server repr 1 client "empty-task"
    f0_1 f0_3 zero (mk_world tt [])
  = solve_polling ready_without_solution_server repr 0 client "empty-task"
      f0_1 f0_3 (add zero f0_1)
      (mk_world tt [poll_event client "empty-task"; Sleep f0_1]).
Proof.
  apply (proj1 solve_waits_unless_ready_with_solution unit
           ready_without_solution_server
           repr 0%nat client "empty-task" f0_1 f0_3 zero (mk_world tt [])
           (mk_world tt [poll_event client "empty-task"])
           (TaskResultResponse.mk 0 None None (Some "ready") None)).
  - reflexivity.
  - reflexivity.
  - vm_compute. reflexivity.
  - left. reflexivity.
Defined.

Lemma poll_loop_shape {server : Type}
    (http_post : string -> value -> server -> reply * server)
    (self : YesCaptchaClient) (task_id : string) (poll_interval timeout : float)
    (fuel : nat) :
  forall (elapsed : float) (w w' : world server) (r : outcome (option Solution.t)),
    poll_loop http_post fuel self task_id poll_interval timeout elapsed w = (r, w') ->
    exists k, (k <= fuel)%nat
      /\ ((trace w' = (trace w ++
             concat (repeat [poll_event self task_id; Sleep poll_interval] k))%list
           /\ (r = Return None \/ (r = OutOfFuel /\ k = fuel)))
          \/ (trace w' = (trace w ++
                concat (repeat [poll_event self task_id; Sleep poll_interval] k)
                ++ [poll_event self task_id])%list
              /\ r <> Return None /\ r <> OutOfFuel)).
Proof.
  induction fuel as [|fuel IH]; intros elapsed w w' r.
  - cbn [poll_loop]. destruct (ltb elapsed timeout); intros [= <- <-];
      exists 0%nat; (split; [lia|]); left; cbn; rewrite app_nil_r; auto.
  - rewrite poll_loop_unfold. destruct (ltb elapsed timeout).
    2:{ intros [= <- <-]. exists 0%nat. split; [lia|]. left. cbn.
        rewrite app_nil_r. auto. }
    pose proof (get_task_result_not_out_of_fuel http_post self task_id w) as Hfuel.
    destruct (get_task_result http_post self task_id w) as [[result|e|] w1] eqn:Hget;
      [| |now contradiction Hfuel].
    + apply get_task_result_trace in Hget.
      destruct (ready_solution result) as [solution|].
      * intros [= <- <-]. exists 0%nat. split; [lia|]. right. cbn.
        repeat split; [assumption | discriminate | discriminate].
      * intros Hloop. apply IH in Hloop as (k & Hk & Hshape).
        exists (S k). split; [lia|]. cbn [trace] in Hshape.
        rewrite Hget, <- !app_assoc in Hshape. cbn [repeat concat].
        destruct Hshape as [[Htr Hr]|[Htr Hr]]; [left|right]; split.
        -- exact Htr.
        -- destruct Hr as [?|[? ?]]; [now left | right; split; [assumption|lia]].
        -- exact Htr.
        -- exact Hr.
    + apply get_task_result_trace in Hget.
      intros [= <- <-]. exists 0%nat. split; [lia|]. right. cbn.
      repeat split; [assumption | discriminate | discriminate].
Qed.

(** X18. In any run of the polling part of [solve], polls and suspensions
    alternate strictly: its effects are [k] rounds of one poll for the task
    id followed by one suspension of exactly the poll interval, and then
    nothing or one last poll; [k] is at most the number of runs of the loop
    body. A run that returns a solution ends with a poll, not with a
    suspension. *)
Theorem solve_polling_alternates
    (server : Type) (http_post : string -> value -> server -> reply * server)
    (format_float : float -> string)
    (fuel : nat) (self : YesCaptchaClient) (task_id : string)
    (poll_interval timeout elapsed : float) (w w' : world server)
    (r : outcome Solution.t) :
  solve_polling http_post format_float fuel self task_id
    poll_interval timeout elapsed w = (r, w') ->
  exists k, (k <= fuel)%nat
    /\ (trace w' = (trace w ++
          concat (repeat [poll_event self task_id; Sleep poll_interval] k))%list
        \/ trace w' = (trace w ++
             concat (repeat [poll_event self task_id; Sleep poll_interval] k)
             ++ [poll_event self task_id])%list)
    /\ (forall solution, r = Return solution ->
          trace w' = (trace w ++
            concat (repeat [poll_event self task_id; Sleep poll_interval] k)
            ++ [poll_event self task_id])%list).
Proof.
  unfold solve_polling, bind. intros Hrun.
  destruct (poll_loop http_post fuel self task_id poll_interval timeout elapsed w)
    as [o w2] eqn:Hloop.
  apply poll_loop_shape in Hloop as (k & Hk & Hshape).
  assert (w' = w2) as ->.
  { destruct o as [[solution|]|e|]; now injection Hrun as _ <-. }
  exists k. split; [exact Hk|].
  destruct Hshape as [[Htr Hr]|[Htr [Hr1 Hr2]]].
  - split; [now left|]. intros solution ->.
    destruct Hr as [->|[-> _]]; discriminate.
  - split; [now right|]. intros _ _. exact Htr.
Qed.

Lemma solve_polling_alternates_witness :
  exists k, (k <= 6)%nat
    /\ (trace (mk_world 4%nat
                 [ poll_event client "poll-task-123"; Sleep f0_1;
                   poll_event client "poll-task-123"; Sleep f0_1;
                   poll_event client "poll-task-123"; Sleep f0_1;
                   poll_event client "poll-task-123" ])
        = (trace (mk_world 0%nat []) ++
            concat (repeat [poll_event client "poll-task-123"; Sleep f0_1] k))%list
        \/ trace (mk_world 4%nat
                    [ poll_event client "poll-task-123"; Sleep f0_1;
                      poll_event client "poll-task-123"; Sleep f0_1;
                      poll_event client "poll-task-123"; Sleep f0_1;
                      poll_event client "poll-task-123" ])
           = (trace (mk_world 0%nat []) ++
               concat (repeat [poll_event client "poll-task-123"; Sleep f0_1] k)
               ++ [poll_event client "poll-task-123"])%list)
    /\ (forall solution,
          Return (Solution.mk None (Some "solved-token-xyz") None None None None None [])
          = Return solution ->
          trace (mk_world 4%nat
                   [ poll_event client "poll-task-123"; Sleep f0_1;
                     poll_event client "poll-task-123"; Sleep f0_1;
                     poll_event client "poll-task-123"; Sleep f0_1;
                     poll_event client "poll-task-123" ])
          = (trace (mk_world 0%nat []) ++
              concat (repeat [poll_event client "poll-task-123"; Sleep f0_1] k)
              ++ [poll_event client "poll-task-123"])%list).
Proof.
  apply (solve_polling_alternates nat polling_server repr 6%nat client "poll-task-123"
           f0_1 f5_0 zero (mk_world 0%nat [])).
  vm_compute. reflexivity.
Defined.

Lemma poll_loop_zero_interval {server : Type}
    (http_post : string -> value -> server -> reply * server)
    (self : YesCaptchaClient) (task_id : string) (timeout : float) (sign : bool) :
  ltb zero timeout = true ->
  (forall w0 : world server, exists result w0',
      get_task_result http_post self task_id w0 = (Return result, w0')
      /\ ready_solution result = None) ->
  forall (fuel : nat) (w : world server),
    exists w',
      poll_loop http_post fuel self task_id (S754_zero sign) timeout zero w
      = (OutOfFuel, w')
      /\ trace w' = (trace w ++
            concat (repeat [poll_event self task_id; Sleep (S754_zero sign)] fuel))%list.
Proof.
  intros Hlt Hproc. induction fuel as [|fuel IH]; intros w.
  - cbn [poll_loop]. rewrite Hlt. exists w. split; [reflexivity|].
    cbn. now rewrite app_nil_r.
  - rewrite poll_loop_unfold, Hlt.
    destruct (Hproc w) as (result & w1 & Hget & Hnot). rewrite Hget, Hnot.
    apply get_task_result_trace in Hget.
    replace (add zero (S754_zero sign)) with zero by (now destruct sign).
    destruct (IH (mk_world (srv w1) (trace w1 ++ [Sleep (S754_zero sign)])%list))
      as (w' & Hloop & Htr).
    exists w'. split; [exact Hloop|].
    rewrite Htr. cbn. rewrite Hget, <- !app_assoc. reflexivity.
Qed.

(** X19. With a poll interval of zero, a timeout above zero and a task
    that never becomes ready, [solve] neither returns nor raises:
    [elapsed] stays at 0.0, so however many runs of the loop body are
    allowed, it uses them all, polling every time, and is still in the
    loop. *)
Theorem solve_zero_interval_never_ends
    (server : Type) (http_post : string -> value -> server -> reply * server)
    (format_float : float -> string)
    (self : YesCaptchaClient) (task : Task) (sign : bool) (timeout : option float)
    (w w1 : world server) (response : CreateTaskResponse.t) (task_id : string) :
  create_task http_post self task w = (Return response, w1) ->
  CreateTaskResponse.taskId response = Some task_id ->
  task_id <> "" ->
  ltb zero (default (Client.timeout self) timeout) = true ->
  (forall w0 : world server, exists result w0',
      get_task_result http_post self task_id w0 = (Return result, w0')
      /\ ready_solution result = None) ->
  forall fuel : nat, exists w',
    solve http_post format_float fuel self task (S754_zero sign) timeout w
    = (OutOfFuel, w')
    /\ trace w' = (trace w1 ++
          concat (repeat [poll_event self task_id; Sleep (S754_zero sign)] fuel))%list.
Proof.
  intros Hcreate Hid Hne Hlt Hproc fuel.
  rewrite (solve_after_create _ _ _ _ _ _ _ _ _ _ _ Hcreate Hid Hne).
  destruct (poll_loop_zero_interval http_post self task_id
              (default (Client.timeout self) timeout) sign Hlt Hproc fuel w1)
    as (w' & Hloop & Htr).
  exists w'. split; [|exact Htr].
  unfold solve_polling, bind. now rewrite Hloop.
Qed.

Lemma solve_zero_interval_never_ends_witness :
  exists w' : world unit,
    solve processing_server repr 5 client turnstile_task (S754_zero false) (Some f0_3)
      (mk_world tt [])
    = (OutOfFuel, w')
    /\ trace w'
       = ([ Post "https://api.yescaptcha.com/createTask"
              (VDict [ ("clientKey", VStr "test-key-12345");
                       ("task", VDict (model_dump_exclude_none turnstile_task));
                       ("softId", VStr SOFT_ID) ]) ]
          ++ concat (repeat [poll_event client "timeout-task"; Sleep (S754_zero false)] 5))%list.
Proof.
  apply (solve_zero_interval_never_ends unit processing_server repr client
           turnstile_task false (Some f0_3) (mk_world tt [])
           (mk_world tt
              [ Post "https://api.yescaptcha.com/createTask"
                  (VDict [ ("clientKey", VStr "test-key-12345");
                           ("task", VDict (model_dump_exclude_none turnstile_task));
                           ("softId", VStr SOFT_ID) ]) ])
           (CreateTaskResponse.mk 0 None None (Some "timeout-task")) "timeout-task").
  - vm_compute. reflexivity.
  - reflexivity.
  - discriminate.
  - reflexivity.
  - intros [[] tr]. eexists _, _. split; reflexivity.
Defined.

(** X20. With a timeout that is not a number (NaN), [elapsed < timeout] is
    false from the start: once the task is created with a task id,
    [solve] raises [TaskTimeoutError] without a single poll or suspension. *)
Theorem solve_nan_timeout_never_polls
    (server : Type) (http_post : string -> value -> server -> reply * server)
    (format_float : float -> string)
    (fuel : nat) (self : YesCaptchaClient) (task : Task)
    (poll_interval : float) (timeout : option float)
    (w w1 : world server) (response : CreateTaskResponse.t) (task_id : string) :
  create_task http_post self task w = (Return response, w1) ->
  CreateTaskResponse.taskId response = Some task_id ->
  task_id <> "" ->
  default (Client.timeout self) timeout = S754_nan ->
  solve http_post format_float fuel self task poll_interval timeout w
  = (Raise (Api (mk_exception TaskTimeoutError 1 (Some "ERROR_TASK_TIMEOUT")
                   (Some (timeout_description format_float task_id S754_nan)))),
     w1)
  /\ polls self w1 = polls self w
  /\ sleeps w1 = sleeps w.
Proof.
  intros Hcreate Hid Hne Hnan.
  split; [|exact (create_task_no_poll _ _ _ _ _ _ Hcreate)].
  rewrite (solve_after_create _ _ _ _ _ _ _ _ _ _ _ Hcreate Hid Hne), Hnan.
  unfold solve_polling, bind.
  rewrite poll_loop_exit by reflexivity.
  reflexivity.
Qed.

Lemma solve_nan_timeout_never_polls_witness :
  solve processing_server repr 3 client turnstile_task f3_0 (Some S754_nan)
    (mk_world tt [])
  = (Raise (Api (mk_exception TaskTimeoutError 1 (Some "ERROR_TASK_TIMEOUT")
                   (Some (timeout_description repr "timeout-task" S754_nan)))),
     mk_world tt
       [ Post "https://api.yescaptcha.com/createTask"
           (VDict [ ("clientKey", VStr "test-key-12345");
                    ("task", VDict (model_dump_exclude_none turnstile_task));
                    ("softId", VStr SOFT_ID) ]) ])
  /\ polls client
       (mk_world tt
          [ Post "https://api.yescaptcha.com/createTask"
              (VDict [ ("clientKey", VStr "test-key-12345");
                       ("task", VDict (model_dump_exclude_none turnstile_task));
                       ("softId", VStr SOFT_ID) ]) ])
     = polls client (mk_world tt [])
  /\ sleeps
       (mk_world tt
          [ Post "https://api.yescaptcha.com/createTask"
              (VDict [ ("clientKey", VStr "test-key-12345");
                       ("task", VDict (model_dump_exclude_none turnstile_task));
                       ("softId", VStr SOFT_ID) ]) ])
     = sleeps (mk_world (server := unit) tt []).
Proof.
  apply (solve_nan_timeout_never_polls unit processing_server repr 3%nat client
           turnstile_task f3_0 (Some S754_nan) (mk_world tt []) _
           (CreateTaskResponse.mk 0 None None (Some "timeout-task")) "timeout-task").
  - vm_compute. reflexivity.
  - reflexivity.
  - discriminate.
  - reflexivity.
Defined.

End SolveMore.

(* ===================================================================== *)
(** ** Properties of the life of the HTTP client *)
(* ===================================================================== *)

Section LifecycleProperties.
Import Lifecycle.

Lemma run_app (calls1 calls2 : list call) (st : state) :
  run (calls1 ++ calls2) st = run calls2 (run calls1 st).
Proof. unfold run. apply fold_left_app. Qed.

(** The client in [_client] is open and only created clients are closed:
    every call keeps this. *)
Lemma step_keeps_current_open (st : state) (c : call) :
  (forall h, _client st = Some h -> is_open st h) ->
  (forall h, h ∈ closed st -> (h < created st)%nat) ->
  (forall h, _client (step st c) = Some h -> is_open (step st c) h)
  /\ (forall h, h ∈ closed (step st c) -> (h < created (step st c))%nat).
Proof.
  intros Hcur Hcl. unfold is_open in *.
  assert (Hnew : forall st',
            _client st' = Some (created st) -> created st' = S (created st) ->
            closed st' = closed st ->
            (forall h, _client st' = Some h -> (h < created st')%nat /\ h ∉ closed st')
            /\ (forall h, h ∈ closed st' -> (h < created st')%nat)).
  { intros st' H1 H2 H3. rewrite H2, H3. split.
    - intros h Hh. rewrite H1 in Hh. injection Hh as <-.
      split; [lia | intros Hin; apply Hcl in Hin; lia].
    - intros h Hh. apply Hcl in Hh. lia. }
  assert (Hclose : forall h0, _client st = Some h0 ->
            (forall h, None = Some h ->
               (h < created st)%nat /\ h ∉ {[h0]} ∪ closed st)
            /\ (forall h, h ∈ {[h0]} ∪ closed st -> (h < created st)%nat)).
  { intros h0 E. split; [discriminate|].
    intros h Hh. apply elem_of_union in Hh as [Hh|Hh].
    - apply elem_of_singleton in Hh. subst. now apply Hcur.
    - now apply Hcl. }
  destruct c; unfold step, __aexit__, __aenter__, close, client.
  - apply (Hnew (mk_state (Some (created st)) (S (created st)) (closed st)));
      reflexivity.
  - destruct (_client st) as [h0|] eqn:E; [exact (Hclose h0 eq_refl)|].
    split; [intros h Hh; congruence | exact Hcl].
  - destruct (_client st) as [h0|] eqn:E.
    + split; [intros h Hh; apply Hcur; cbn in Hh; congruence | exact Hcl].
    + apply (Hnew (mk_state (Some (created st)) (S (created st)) (closed st)));
        reflexivity.
  - destruct (_client st) as [h0|] eqn:E; [exact (Hclose h0 eq_refl)|].
    split; [intros h Hh; congruence | exact Hcl].
Qed.

Lemma run_keeps_current_open (calls : list call) :
  forall st,
    (forall h, _client st = Some h -> is_open st h) ->
    (forall h, h ∈ closed st -> (h < created st)%nat) ->
    (forall h, _client (run calls st) = Some h -> is_open (run calls st) h)
    /\ (forall h, h ∈ closed (run calls st) -> (h < created (run calls st))%nat).
Proof.
  induction calls as [|c calls IH]; intros st Hcur Hcl; [now split|].
  cbn. destruct (step_keeps_current_open st c Hcur Hcl) as [H1 H2].
  now apply IH.
Qed.

(** X21. Whatever calls were made before, in whatever order (entering and
    leaving the context manager, requests, [close]), the HTTP client that
    the property [client] hands to the next request is an open one: a
    request never goes through a client on which [aclose()] has run. *)
Theorem client_property_never_returns_closed_client (calls : list call) :
  is_open (snd (client (run calls initial))) (fst (client (run calls initial))).
Proof.
  destruct (run_keeps_current_open (calls ++ [Request]) initial) as [Hcur _].
  - intros h [=].
  - intros h Hh. cbn in Hh. set_solver.
  - rewrite run_app in Hcur. cbn in Hcur.
    unfold client in *. destruct (_client (run calls initial)) as [h|] eqn:E; cbn in *.
    + apply Hcur. exact E.
    + apply Hcur. reflexivity.
Qed.

Lemma client_property_never_returns_closed_client_witness :
  is_open (snd (client (run [Enter; Request; Exit; Close] initial)))
          (fst (client (run [Enter; Request; Exit; Close] initial))).
Proof.
  apply (client_property_never_returns_closed_client [Enter; Request; Exit; Close]).
Defined.

Lemma step_keeps_others_closed (st : state) (c : call) :
  is_enter c = false ->
  others_closed st ->
  others_closed (step st c).
Proof.
  intros Hc Hinv. unfold others_closed in *.
  assert (Hclose : forall h0, _client st = Some h0 ->
            forall h, (h < created st)%nat -> h ∈ {[h0]} ∪ closed st).
  { intros h0 E h Hh. destruct (decide (h = h0)) as [->|Hne]; [set_solver|].
    apply elem_of_union_r. apply Hinv; [assumption | congruence]. }
  destruct c; try discriminate; unfold step, __aexit__, close, client.
  - destruct (_client st) as [h0|] eqn:E.
    + intros h Hh _. now apply (Hclose h0).
    + intros h Hh _. apply Hinv; [assumption | discriminate].
  - destruct (_client st) as [h0|] eqn:E.
    + cbn. intros h Hh Hne. apply Hinv; [assumption | congruence].
    + cbn. intros h Hh Hne. apply Hinv; [|discriminate].
      assert (h <> created st) by congruence. lia.
  - destruct (_client st) as [h0|] eqn:E.
    + intros h Hh _. now apply (Hclose h0).
    + intros h Hh _. apply Hinv; [assumption | discriminate].
Qed.

Lemma run_keeps_others_closed (calls : list call) :
  forall st,
    forallb (fun c => negb (is_enter c)) calls = true ->
    others_closed st ->
    others_closed (run calls st).
Proof.
  induction calls as [|c calls IH]; intros st Hcalls Hinv; [exact Hinv|].
  cbn in Hcalls. apply andb_prop in Hcalls as [Hc Hcalls].
  cbn. apply IH; [exact Hcalls|].
  apply step_keeps_others_closed; [|exact Hinv].
  now destruct (is_enter c).
Qed.

Lemma close_closes_all (st : state) :
  others_closed st ->
  _client (close st) = None
  /\ (forall h, (h < created (close st))%nat -> h ∈ closed (close st)).
Proof.
  intros Hinv. unfold close. destruct (_client st) as [h0|] eqn:E; cbn.
  - split; [reflexivity|]. intros h Hh.
    destruct (decide (h = h0)) as [->|Hne]; [set_solver|].
    apply elem_of_union_r. apply Hinv; [assumption | congruence].
  - split; [exact E|]. intros h Hh. apply Hinv; [assumption | congruence].
Qed.

(** X22. A client that is used on its own or inside one [async with] block
    (the context manager is not entered again later) keeps at most one HTTP
    client open, the one in [_client]; after [close] (or leaving the block)
    [_client] is [None] and every HTTP client that was created has been
    closed. *)
Theorem close_leaves_no_client_open (calls : list call) (st0 : state) :
  st0 = initial \/ st0 = __aenter__ initial ->
  forallb (fun c => negb (is_enter c)) calls = true ->
  others_closed (run calls st0)
  /\ _client (close (run calls st0)) = None
  /\ (forall h, (h < created (close (run calls st0)))%nat ->
        h ∈ closed (close (run calls st0))).
Proof.
  intros Hst Hcalls.
  assert (Hinit : others_closed st0).
  { destruct Hst as [-> | ->]; intros h Hh Hne; cbn in *; [lia|].
    assert (h = 0%nat) as -> by lia. now contradiction Hne. }
  pose proof (run_keeps_others_closed calls st0 Hcalls Hinit) as Hinv.
  split; [exact Hinv|]. now apply close_closes_all.
Qed.

Lemma close_leaves_no_client_open_witness :
  others_closed (run [Request; Close; Request; Request] (__aenter__ initial))
  /\ _client (close (run [Request; Close; Request; Request] (__aenter__ initial))) = None
  /\ (forall h,
        (h < created (close (run [Request; Close; Request; Request]
                               (__aenter__ initial))))%nat ->
        h ∈ closed (close (run [Request; Close; Request; Request]
                             (__aenter__ initial)))).
Proof.
  apply (close_leaves_no_client_open [Request; Close; Request; Request]
           (__aenter__ initial)).
  - right. reflexivity.
  - reflexivity.
Defined.

Lemma step_keeps_leaked (h : nat) (st : state) (c : call) :
  is_open st h -> _client st <> Some h ->
  is_open (step st c) h /\ _client (step st c) <> Some h.
Proof.
  unfold is_open. intros [Hlt Hopen] Hcur.
  assert (Hnew : Some (created st) <> Some h) by (intros [= ?]; lia).
  assert (Hclose : forall h0, _client st = Some h0 -> h ∉ {[h0]} ∪ closed st).
  { intros h0 E Hin. apply elem_of_union in Hin as [Hin|Hin]; [|contradiction].
    apply elem_of_singleton in Hin. congruence. }
  destruct c; unfold step, __aexit__, __aenter__, close, client.
  - cbn. repeat split; [lia | assumption | assumption].
  - destruct (_client st) as [h0|] eqn:E; cbn.
    + repeat split; [assumption | now apply Hclose | discriminate].
    + repeat split; [assumption | assumption | congruence].
  - destruct (_client st) as [h0|] eqn:E; cbn.
    + repeat split; [assumption | assumption | congruence].
    + repeat split; [lia | assumption | assumption].
  - destruct (_client st) as [h0|] eqn:E; cbn.
    + repeat split; [assumption | now apply Hclose | discriminate].
    + repeat split; [assumption | assumption | congruence].
Qed.

(** X23. [__aenter__] does not close an HTTP client that the object already
    holds: if [_client] holds an open client when the context manager is
    entered, that client is replaced and stays open through every later
    call, [close] and [__aexit__] included, and is never used again. *)
Theorem entering_with_live_client_leaks_it
    (st : state) (h : nat) (calls : list call) :
  _client st = Some h ->
  is_open st h ->
  is_open (run calls (__aenter__ st)) h
  /\ _client (run calls (__aenter__ st)) <> Some h.
Proof.
  intros Hcur Hopen.
  assert (Hstart : is_open (__aenter__ st) h /\ _client (__aenter__ st) <> Some h).
  { unfold is_open in *. cbn. destruct Hopen as [Hlt Hnot].
    repeat split; [lia | assumption | intros [= ?]; lia]. }
  clear Hcur Hopen. revert Hstart. generalize (__aenter__ st) as st1.
  induction calls as [|c calls IH]; intros st1 [H1 H2]; [now split|].
  cbn. apply IH. now apply step_keeps_leaked.
Qed.

Lemma entering_with_live_client_leaks_it_witness :
  is_open (run [Request; Exit; Close] (__aenter__ (run [Request] initial))) 0%nat
  /\ _client (run [Request; Exit; Close] (__aenter__ (run [Request] initial)))
     <> Some 0%nat.
Proof.
  apply (entering_with_live_client_leaks_it (run [Request] initial) 0%nat
           [Request; Exit; Close]).
  - reflexivity.
  - split; [cbn; lia | cbn; set_solver].
Defined.

End LifecycleProperties.
